(** * go-coveralls-api: the repository service, embedded and verified

    The Go package [coveralls] is a typed client for the repository
    endpoints of the Coveralls REST API.  Its logic sits in three methods,
    [Get], [Add] and [Update], which build one HTTP request each, hand it to
    the resty client, and map the status code of the answer to a record or
    to an error value.

    The repository holds two versions of that file:
    - [src/unnamed/part_000], with structured error types and the
      name-taken refinement of status 422 (module [Structured] below);
    - [src/repositories.go], with sentinel errors only (module [Sentinel]).
    The record types are the same in both and are declared once. *)

From Stdlib Require Import ZArith String Ascii List Bool Lia.
From Stdlib Require Import Floats.PrimFloat.
From stdpp Require Import base option strings pretty gmap list sorting.

Local Open Scope Z_scope.
Local Open Scope string_scope.

(** ** Go base types *)

(** [float64]: the code stores and forwards these values and never computes
    with them. *)
Definition float64 : Type := PrimFloat.float.

(** [context.Context]: the service only hands it on to the client. *)
Record Context : Type := { Deadline : option Z; Cancelled : bool }.

(** Status codes of [net/http] that the service names. *)
Module http.
Definition StatusOK : Z := 200.
Definition StatusCreated : Z := 201.
Definition StatusNotFound : Z := 404.
Definition StatusUnprocessableEntity : Z := 422.
End http.

(** ** [strings.Contains] on byte strings *)

Fixpoint HasPrefix (s prefix : string) {struct prefix} : bool :=
  match prefix with
  | EmptyString => true
  | String c prefix' =>
      match s with
      | EmptyString => false
      | String d s' => Ascii.eqb c d && HasPrefix s' prefix'
      end
  end.

Fixpoint Contains (s substr : string) : bool :=
  HasPrefix s substr
  || match s with
     | EmptyString => false
     | String _ s' => Contains s' substr
     end.

(** ** JSON documents, as [encoding/json] tokenises them

    A number is kept as its literal; turning a literal into an [int] or a
    [float64] (and a [float64] into a literal) is the work of [strconv],
    which is outside the repository and is taken as a parameter, as is the
    case-folding comparison of object keys. *)

#[warnings="-register-all"]
Inductive JSON : Type :=
| JNull
| JBool (b : bool)
| JNumber (lit : string)
| JString (s : string)
| JArray (items : list JSON)
| JObject (members : list (string * JSON)).

Class Lexical : Type := {
  FormatFloat : float64 -> string;
  ParseFloat : string -> option float64;
  ParseInt : string -> option Z;
  EqualFold : string -> string -> bool
}.

(** What reflection gives the decoder for a type: how a JSON value is
    stored into an existing value of that type ([None]: the decoder
    reports an error). *)
Class Unmarshaler (T : Type) : Type :=
  Unmarshal : JSON -> T -> option T.

(** What lies between the bytes on the wire and the values above, and is
    the work of [encoding/json]'s scanner and of [net/url]: the document a
    body text spells ([None] when the text is not JSON), and the URL a
    request goes to for the string the caller built ([url.Parse] and then
    [String]; [None] when the string does not parse). *)
Class Wire : Type := {
  ParseJSON : string -> option JSON;
  ParseURL : string -> option string
}.

(** ** The record types (identical in both source files) *)

Module Repository.
Record t : Type := {
  ID : Z;
  Name : string;
  Service : string;
  CommentOnPullRequests : option bool;
  SendBuildStatus : option bool;
  CommitStatusFailThreshold : option float64;
  CommitStatusFailChangeThreshold : option float64;
  HasBadge : bool;
  Token : string;
  CreatedAt : string;
  UpdatedAt : string
}.

(** [Repository{}] *)
Definition zero : t :=
  {| ID := 0; Name := ""; Service := "";
     CommentOnPullRequests := None; SendBuildStatus := None;
     CommitStatusFailThreshold := None;
     CommitStatusFailChangeThreshold := None;
     HasBadge := false; Token := ""; CreatedAt := ""; UpdatedAt := "" |}.

(** The struct fields, in declaration order, and their [json] tags. *)
Inductive field : Type :=
| fID | fName | fService | fCommentOnPullRequests | fSendBuildStatus
| fCommitStatusFailThreshold | fCommitStatusFailChangeThreshold
| fHasBadge | fToken | fCreatedAt | fUpdatedAt.

Definition fields : list field :=
  [fID; fName; fService; fCommentOnPullRequests; fSendBuildStatus;
   fCommitStatusFailThreshold; fCommitStatusFailChangeThreshold;
   fHasBadge; fToken; fCreatedAt; fUpdatedAt].

Definition tag (f : field) : string :=
  match f with
  | fID => "id"
  | fName => "name"
  | fService => "service"
  | fCommentOnPullRequests => "comment_on_pull_requests"
  | fSendBuildStatus => "send_build_status"
  | fCommitStatusFailThreshold => "commit_status_fail_threshold"
  | fCommitStatusFailChangeThreshold => "commit_status_fail_change_threshold"
  | fHasBadge => "has_badge"
  | fToken => "token"
  | fCreatedAt => "created_at"
  | fUpdatedAt => "updated_at"
  end.
End Repository.
Abbreviation Repository := Repository.t.

Module RepositoryConfig.
Record t : Type := {
  Service : string;
  Name : string;
  CommentOnPullRequests : option bool;
  SendBuildStatus : option bool;
  CommitStatusFailThreshold : option float64;
  CommitStatusFailChangeThreshold : option float64
}.

(** [RepositoryConfig{}] *)
Definition zero : t :=
  {| Service := ""; Name := "";
     CommentOnPullRequests := None; SendBuildStatus := None;
     CommitStatusFailThreshold := None;
     CommitStatusFailChangeThreshold := None |}.

Inductive field : Type :=
| fService | fName | fCommentOnPullRequests | fSendBuildStatus
| fCommitStatusFailThreshold | fCommitStatusFailChangeThreshold.

Definition fields : list field :=
  [fService; fName; fCommentOnPullRequests; fSendBuildStatus;
   fCommitStatusFailThreshold; fCommitStatusFailChangeThreshold].

Definition tag (f : field) : string :=
  match f with
  | fService => "service"
  | fName => "name"
  | fCommentOnPullRequests => "comment_on_pull_requests"
  | fSendBuildStatus => "send_build_status"
  | fCommitStatusFailThreshold => "commit_status_fail_threshold"
  | fCommitStatusFailChangeThreshold => "commit_status_fail_change_threshold"
  end.

(** Every field but [service] and [name] carries [omitempty]. *)
Definition omitempty (f : field) : bool :=
  match f with
  | fService | fName => false
  | _ => true
  end.
End RepositoryConfig.
Abbreviation RepositoryConfig := RepositoryConfig.t.

(** ** Strings in JSON: coercion to valid UTF-8

    [encoding/json] writes and reads strings rune by rune
    ([utf8.DecodeRuneInString]); every byte that does not start a valid
    UTF-8 sequence becomes U+FFFD, on the way out and on the way in. *)

Definition between (lo hi : N) (c : ascii) : bool :=
  (lo <=? N_of_ascii c)%N && (N_of_ascii c <=? hi)%N.

(** The width of the rune at the head of [s]; 0 stands for the error rune
    of width 1 (no valid sequence starts here, or the string is empty). *)
Definition runeSize (s : string) : nat :=
  match s with
  | EmptyString => 0
  | String c0 rest =>
      if between 0 127 c0 then 1
      else if between 194 223 c0 then
        match rest with
        | String c1 _ => if between 128 191 c1 then 2 else 0
        | _ => 0
        end
      else if between 224 239 c0 then
        match rest with
        | String c1 (String c2 _) =>
            let lo := if between 224 224 c0 then 160%N else 128%N in
            let hi := if between 237 237 c0 then 159%N else 191%N in
            if between lo hi c1 && between 128 191 c2 then 3 else 0
        | _ => 0
        end
      else if between 240 244 c0 then
        match rest with
        | String c1 (String c2 (String c3 _)) =>
            let lo := if between 240 240 c0 then 144%N else 128%N in
            let hi := if between 244 244 c0 then 143%N else 191%N in
            if between lo hi c1 && between 128 191 c2 && between 128 191 c3
            then 4 else 0
        | _ => 0
        end
      else 0
  end%nat.

(** U+FFFD in UTF-8: EF BF BD. *)
Definition replacementChar : string :=
  String (ascii_of_N 239) (String (ascii_of_N 191) (String (ascii_of_N 189) "")).

(** [pending] bytes of the current rune are still to be copied. *)
Fixpoint coerce (pending : nat) (s : string) : string :=
  match s with
  | EmptyString => EmptyString
  | String c rest =>
      match pending with
      | S k => String c (coerce k rest)
      | O =>
          match runeSize s with
          | O => replacementChar +:+ coerce 0 rest
          | S k => String c (coerce k rest)
          end
      end
  end.

Definition coerceUTF8 (s : string) : string := coerce 0 s.

(** [utf8.ValidString] *)
Definition ValidString (s : string) : bool := String.eqb (coerceUTF8 s) s.

(** ** [encoding/json], as far as the struct tags above drive it *)

Section EncodingJSON.
Context `{Lexical}.

(** *** Decoding: an object is stored into a struct member by member.
    A key selects the field whose tag it equals, else the first field
    whose tag it matches up to case; a key that selects no field is
    skipped. *)

Definition findField {F : Type} (tag : F -> string) (fields : list F)
    (key : string) : option F :=
  match List.find (fun f => String.eqb (tag f) key) fields with
  | Some f => Some f
  | None => List.find (fun f => EqualFold (tag f) key) fields
  end.

Fixpoint object {F T : Type} (tag : F -> string) (fields : list F)
    (store : F -> JSON -> T -> option T)
    (members : list (string * JSON)) (t : T) : option T :=
  match members with
  | [] => Some t
  | (key, v) :: rest =>
      match findField tag fields key with
      | Some f =>
          match store f v t with
          | Some t' => object tag fields store rest t'
          | None => None
          end
      | None => object tag fields store rest t
      end
  end.

Definition unmarshalStruct {F T : Type} (tag : F -> string)
    (fields : list F) (store : F -> JSON -> T -> option T)
    (v : JSON) (t : T) : option T :=
  match v with
  | JObject members => object tag fields store members t
  | JNull => Some t
  | _ => None
  end.

(** Literals stored into the kinds of field the two structs have.  [null]
    leaves a plain value as it is and sets a pointer to nil. *)
Definition storeString (v : JSON) (old : string) : option string :=
  match v with
  | JNull => Some old
  | JString s => Some (coerceUTF8 s)
  | _ => None
  end.

Definition storeBool (v : JSON) (old : bool) : option bool :=
  match v with
  | JNull => Some old
  | JBool b => Some b
  | _ => None
  end.

Definition storeInt (v : JSON) (old : Z) : option Z :=
  match v with
  | JNull => Some old
  | JNumber lit => ParseInt lit
  | _ => None
  end.

Definition storeBoolPtr (v : JSON) (old : option bool)
    : option (option bool) :=
  match v with
  | JNull => Some None
  | JBool b => Some (Some b)
  | _ => None
  end.

Definition storeFloatPtr (v : JSON) (old : option float64)
    : option (option float64) :=
  match v with
  | JNull => Some None
  | JNumber lit =>
      match ParseFloat lit with
      | Some f => Some (Some f)
      | None => None
      end
  | _ => None
  end.

(** *** Encoding *)

Definition encodeString (s : string) : option JSON :=
  Some (JString (coerceUTF8 s)).

Definition encodeBool (b : bool) : option JSON := Some (JBool b).

(** NaN and the infinities have no JSON form: the encoder fails. *)
Definition encodeFloat (f : float64) : option JSON :=
  if PrimFloat.is_nan f || PrimFloat.is_infinity f then None
  else Some (JNumber (FormatFloat f)).

Definition encodePtr {A : Type} (enc : A -> option JSON) (p : option A)
    : option JSON :=
  match p with
  | None => Some JNull
  | Some a => enc a
  end.

Definition isNil {A : Type} (p : option A) : bool :=
  match p with
  | None => true
  | Some _ => false
  end.

(** The struct encoder: fields in declaration order, an [omitempty]
    field that holds its empty value is left out. *)
Fixpoint encodeFields {F T : Type} (tag : F -> string)
    (omitempty : F -> bool) (isEmptyValue : F -> T -> bool)
    (encode : F -> T -> option JSON) (fs : list F) (t : T)
    : option (list (string * JSON)) :=
  match fs with
  | [] => Some []
  | f :: fs' =>
      if omitempty f && isEmptyValue f t
      then encodeFields tag omitempty isEmptyValue encode fs' t
      else
        match encode f t with
        | None => None
        | Some v =>
            match encodeFields tag omitempty isEmptyValue encode fs' t with
            | None => None
            | Some rest => Some ((tag f, v) :: rest)
            end
        end
  end.
End EncodingJSON.

(** ** The two structs under [encoding/json] *)

Section StructCodecs.
Context `{Lexical}.

(** Storing a JSON value into one field of a [Repository]. *)
Definition storeRepository (f : Repository.field) (v : JSON)
    (r : Repository) : option Repository :=
  let '(Repository.Build_t id name service comment send threshold change
          badge token created updated) := r in
  match f with
  | Repository.fID =>
      x ← storeInt v id;
      Some (Repository.Build_t x name service comment send threshold change
              badge token created updated)
  | Repository.fName =>
      x ← storeString v name;
      Some (Repository.Build_t id x service comment send threshold change
              badge token created updated)
  | Repository.fService =>
      x ← storeString v service;
      Some (Repository.Build_t id name x comment send threshold change
              badge token created updated)
  | Repository.fCommentOnPullRequests =>
      x ← storeBoolPtr v comment;
      Some (Repository.Build_t id name service x send threshold change
              badge token created updated)
  | Repository.fSendBuildStatus =>
      x ← storeBoolPtr v send;
      Some (Repository.Build_t id name service comment x threshold change
              badge token created updated)
  | Repository.fCommitStatusFailThreshold =>
      x ← storeFloatPtr v threshold;
      Some (Repository.Build_t id name service comment send x change
              badge token created updated)
  | Repository.fCommitStatusFailChangeThreshold =>
      x ← storeFloatPtr v change;
      Some (Repository.Build_t id name service comment send threshold x
              badge token created updated)
  | Repository.fHasBadge =>
      x ← storeBool v badge;
      Some (Repository.Build_t id name service comment send threshold change
              x token created updated)
  | Repository.fToken =>
      x ← storeString v token;
      Some (Repository.Build_t id name service comment send threshold change
              badge x created updated)
  | Repository.fCreatedAt =>
      x ← storeString v created;
      Some (Repository.Build_t id name service comment send threshold change
              badge token x updated)
  | Repository.fUpdatedAt =>
      x ← storeString v updated;
      Some (Repository.Build_t id name service comment send threshold change
              badge token created x)
  end.

#[export] Instance UnmarshalRepository : Unmarshaler Repository :=
  unmarshalStruct Repository.tag Repository.fields storeRepository.

(** Storing a JSON value into one field of a [RepositoryConfig]. *)
Definition storeRepositoryConfig (f : RepositoryConfig.field) (v : JSON)
    (c : RepositoryConfig) : option RepositoryConfig :=
  let '(RepositoryConfig.Build_t service name comment send threshold change)
    := c in
  match f with
  | RepositoryConfig.fService =>
      x ← storeString v service;
      Some (RepositoryConfig.Build_t x name comment send threshold change)
  | RepositoryConfig.fName =>
      x ← storeString v name;
      Some (RepositoryConfig.Build_t service x comment send threshold change)
  | RepositoryConfig.fCommentOnPullRequests =>
      x ← storeBoolPtr v comment;
      Some (RepositoryConfig.Build_t service name x send threshold change)
  | RepositoryConfig.fSendBuildStatus =>
      x ← storeBoolPtr v send;
      Some (RepositoryConfig.Build_t service name comment x threshold change)
  | RepositoryConfig.fCommitStatusFailThreshold =>
      x ← storeFloatPtr v threshold;
      Some (RepositoryConfig.Build_t service name comment send x change)
  | RepositoryConfig.fCommitStatusFailChangeThreshold =>
      x ← storeFloatPtr v change;
      Some (RepositoryConfig.Build_t service name comment send threshold x)
  end.

#[export] Instance UnmarshalRepositoryConfig : Unmarshaler RepositoryConfig :=
  unmarshalStruct RepositoryConfig.tag RepositoryConfig.fields
    storeRepositoryConfig.

(** The empty value of each field of a [RepositoryConfig]: the empty
    string, the nil pointer. *)
Definition isEmptyValue (f : RepositoryConfig.field) (c : RepositoryConfig)
    : bool :=
  match f with
  | RepositoryConfig.fService => String.eqb (RepositoryConfig.Service c) ""
  | RepositoryConfig.fName => String.eqb (RepositoryConfig.Name c) ""
  | RepositoryConfig.fCommentOnPullRequests =>
      isNil (RepositoryConfig.CommentOnPullRequests c)
  | RepositoryConfig.fSendBuildStatus =>
      isNil (RepositoryConfig.SendBuildStatus c)
  | RepositoryConfig.fCommitStatusFailThreshold =>
      isNil (RepositoryConfig.CommitStatusFailThreshold c)
  | RepositoryConfig.fCommitStatusFailChangeThreshold =>
      isNil (RepositoryConfig.CommitStatusFailChangeThreshold c)
  end.

Definition encodeField (f : RepositoryConfig.field) (c : RepositoryConfig)
    : option JSON :=
  match f with
  | RepositoryConfig.fService => encodeString (RepositoryConfig.Service c)
  | RepositoryConfig.fName => encodeString (RepositoryConfig.Name c)
  | RepositoryConfig.fCommentOnPullRequests =>
      encodePtr encodeBool (RepositoryConfig.CommentOnPullRequests c)
  | RepositoryConfig.fSendBuildStatus =>
      encodePtr encodeBool (RepositoryConfig.SendBuildStatus c)
  | RepositoryConfig.fCommitStatusFailThreshold =>
      encodePtr encodeFloat (RepositoryConfig.CommitStatusFailThreshold c)
  | RepositoryConfig.fCommitStatusFailChangeThreshold =>
      encodePtr encodeFloat
        (RepositoryConfig.CommitStatusFailChangeThreshold c)
  end.

(** [json.Marshal] of a [RepositoryConfig] value. *)
Definition marshalRepositoryConfig (c : RepositoryConfig) : option JSON :=
  match encodeFields RepositoryConfig.tag RepositoryConfig.omitempty
          isEmptyValue encodeField RepositoryConfig.fields c with
  | Some members => Some (JObject members)
  | None => None
  end.

(** [json.Marshal] of a [map[string]*RepositoryConfig]: an object whose
    keys come in byte order. *)
Definition marshalEntry (e : string * option RepositoryConfig)
    : option (string * JSON) :=
  match encodePtr marshalRepositoryConfig e.2 with
  | Some v => Some (e.1, v)
  | None => None
  end.

Definition keyLe (a b : string * option RepositoryConfig) : Prop :=
  String.leb a.1 b.1 = true.

#[export] Instance keyLe_dec a b : Decision (keyLe a b).
Proof. unfold keyLe. apply _. Defined.

Definition marshalBody (m : gmap string (option RepositoryConfig))
    : option JSON :=
  match mapM marshalEntry (merge_sort keyLe (map_to_list m)) with
  | Some members => Some (JObject members)
  | None => None
  end.
End StructCodecs.

(** ** Calls that talk to the outside

    A call runs against the state of everything outside the program (the
    network, the server) and leaves that state changed. *)

Definition Call (World A : Type) : Type := World -> A * World.

#[export] Instance Call_ret {World : Type} : MRet (Call World) :=
  fun A (a : A) (w : World) => (a, w).

#[export] Instance Call_bind {World : Type} : MBind (Call World) :=
  fun A B (f : A -> Call World B) (m : Call World A) (w : World) =>
    let '(a, w') := m w in f a w'.

(** ** The resty client, as the service uses it *)

Module resty.
Inductive Method : Type := MethodGet | MethodPost | MethodPut.

Record Client : Type := { Header : gmap string string }.

Definition New : Client := {| Header := ∅ |}.

Definition SetHeader (header value : string) (c : Client) : Client :=
  {| Header := <[header := value]> (Header c) |}.

(** A request under construction.  [ResultTarget] is the value behind the
    pointer given to [SetResult]. *)
Record Request (T : Type) : Type := {
  client : Client;
  Verb : Method;
  URL : string;
  Ctx : option Context;
  ReqBody : option (gmap string (option RepositoryConfig));
  ResultTarget : T
}.
Arguments client {T}.
Arguments Verb {T}.
Arguments URL {T}.
Arguments Ctx {T}.
Arguments ReqBody {T}.
Arguments ResultTarget {T}.

Definition R (c : Client) : Request unit :=
  {| client := c; Verb := MethodGet; URL := ""; Ctx := None;
     ReqBody := None; ResultTarget := tt |}.

Definition SetContext {T : Type} (ctx : Context) (r : Request T)
    : Request T :=
  {| client := client r; Verb := Verb r; URL := URL r; Ctx := Some ctx;
     ReqBody := ReqBody r; ResultTarget := ResultTarget r |}.

Definition SetBody {T : Type} (body : gmap string (option RepositoryConfig))
    (r : Request T) : Request T :=
  {| client := client r; Verb := Verb r; URL := URL r; Ctx := Ctx r;
     ReqBody := Some body; ResultTarget := ResultTarget r |}.

Definition SetResult {T U : Type} (res : U) (r : Request T) : Request U :=
  {| client := client r; Verb := Verb r; URL := URL r; Ctx := Ctx r;
     ReqBody := ReqBody r; ResultTarget := res |}.

Definition withVerb {T : Type} (m : Method) (url : string)
    (r : Request T) : Request T :=
  {| client := client r; Verb := m; URL := url; Ctx := Ctx r;
     ReqBody := ReqBody r; ResultTarget := ResultTarget r |}.

(** What comes back.  [Result] is the value behind the pointer that
    [SetResult] was given, after the exchange. *)
Record Response (T : Type) : Type := {
  StatusCode : Z;
  Body : string;
  Result : T
}.
Arguments StatusCode {T}.
Arguments Body {T}.
Arguments Result {T}.

(** The exchange itself is outside the repository.  [E] is the type of Go
    [error] values; the second component of the outcome is [None] for a nil
    error. *)
Class Transport (E World : Type) : Type :=
  Execute : forall T : Type, Unmarshaler T -> Request T ->
            Call World (Response T * option E).

Section Verbs.
Context {E World : Type} `{!Transport E World}.
Context {T : Type} `{!Unmarshaler T}.

Definition Get (url : string) (r : Request T)
    : Call World (Response T * option E) :=
  Execute T _ (withVerb MethodGet url r).

Definition Post (url : string) (r : Request T)
    : Call World (Response T * option E) :=
  Execute T _ (withVerb MethodPost url r).

Definition Put (url : string) (r : Request T)
    : Call World (Response T * option E) :=
  Execute T _ (withVerb MethodPut url r).
End Verbs.
End resty.

(** ** [src/unnamed/part_001]: the client *)

Definition defaultHostURL : string := "https://coveralls.io".

Record Client : Type := {
  client_ : resty.Client;   (* field [client] *)
  HostURL : string
}.

Record service : Type := { client : Client }.

(** [type RepositoryServiceImpl service] *)
Definition RepositoryServiceImpl : Type := service.

(** [NewClient(t)], [t] the API token. *)
Definition NewClient (t : string) : Client :=
  let cli := resty.New in
  let cli := resty.SetHeader "Accept" "application/json" cli in
  let cli := resty.SetHeader "Authorization" ("token " +:+ t) cli in
  {| client_ := cli; HostURL := defaultHostURL |}.

(** The [Repositories] service of a client shares the client. *)
Definition Repositories (c : Client) : service := {| client := c |}.

(** ** [src/unnamed/part_000]: the service with structured errors *)

Module Structured.
(** Go [error] values this file can return.  [ErrRepoNotFound] and
    [ErrNameIsTaken] are package-level sentinels; the two struct types
    carry their fields; [ClientError] stands for whatever error the resty
    client itself reports. *)
Inductive error : Type :=
| ErrRepoNotFound
| ErrNameIsTaken
| ErrUnprocessableEntity (ErrorBody : string)
| ErrUnexpectedStatusCode (StatusCode : Z) (ErrorBody : string)
| ClientError (msg : string).

Definition newErrUnprocessableEntity (errorBody : string) : error :=
  ErrUnprocessableEntity errorBody.

Definition newErrUnexpectedStatusCode (c : Z) (b : string) : error :=
  ErrUnexpectedStatusCode c b.

(** The [Error()] methods. *)
Definition Error (e : error) : string :=
  match e with
  | ErrRepoNotFound =>
      "repo was not found (status code " +:+ pretty http.StatusNotFound
      +:+ ")"
  | ErrNameIsTaken =>
      "unprocessable entity (status code "
      +:+ pretty http.StatusUnprocessableEntity
      +:+ "): repo name has already been taken"
  | ErrUnprocessableEntity body =>
      "unprocessable entity (status code "
      +:+ pretty http.StatusUnprocessableEntity
      +:+ "). Error body: '" +:+ body +:+ "'"
  | ErrUnexpectedStatusCode c body =>
      "super unexpected status code " +:+ pretty c
      +:+ ". Error body: '" +:+ body +:+ "'"
  | ClientError msg => msg
  end.

Section Service.
Context {World : Type} `{!Lexical} `{!resty.Transport error World}.

Definition Get (s : service) (ctx : Context) (svc repo : string)
    : Call World (option Repository * option error) :=
  let url := HostURL (client s) +:+ "/api/repos/" +:+ svc +:+ "/" +:+ repo in
  '(resp, err) ← resty.Get url
      (resty.SetResult Repository.zero
         (resty.SetContext ctx (resty.R (client_ (client s)))));
  match err with
  | Some e => mret (None, Some e)
  | None =>
      if (resty.StatusCode resp =? http.StatusOK)%Z then
        mret (Some (resty.Result resp), None)
      else if (resty.StatusCode resp =? http.StatusNotFound)%Z then
        mret (None, Some ErrRepoNotFound)
      else
        mret (None,
              Some (newErrUnexpectedStatusCode (resty.StatusCode resp)
                      (resty.Body resp)))
  end.

Definition Add (s : service) (ctx : Context) (data : option RepositoryConfig)
    : Call World (option RepositoryConfig * option error) :=
  let url := HostURL (client s) +:+ "/api/repos" in
  let body : gmap string (option RepositoryConfig) := {[ "repo" := data ]} in
  '(resp, err) ← resty.Post url
      (resty.SetResult RepositoryConfig.zero
         (resty.SetBody body
            (resty.SetContext ctx (resty.R (client_ (client s))))));
  match err with
  | Some e => mret (None, Some e)
  | None =>
      if (resty.StatusCode resp =? http.StatusCreated)%Z then
        mret (Some (resty.Result resp), None)
      else if (resty.StatusCode resp =? http.StatusUnprocessableEntity)%Z then
        let errorBody := resty.Body resp in
        if Contains errorBody "has already been taken" then
          mret (None, Some ErrNameIsTaken)
        else
          mret (None, Some (newErrUnprocessableEntity errorBody))
      else
        mret (None,
              Some (newErrUnexpectedStatusCode (resty.StatusCode resp)
                      (resty.Body resp)))
  end.

Definition Update (s : service) (ctx : Context) (svc repo : string)
    (data : option RepositoryConfig)
    : Call World (option RepositoryConfig * option error) :=
  let url := HostURL (client s) +:+ "/api/repos/" +:+ svc +:+ "/" +:+ repo in
  let body : gmap string (option RepositoryConfig) := {[ "repo" := data ]} in
  '(resp, err) ← resty.Put url
      (resty.SetResult RepositoryConfig.zero
         (resty.SetBody body
            (resty.SetContext ctx (resty.R (client_ (client s))))));
  match err with
  | Some e => mret (None, Some e)
  | None =>
      if (resty.StatusCode resp =? http.StatusOK)%Z then
        mret (Some (resty.Result resp), None)
      else if (resty.StatusCode resp =? http.StatusNotFound)%Z then
        mret (None, Some ErrRepoNotFound)
      else if (resty.StatusCode resp =? http.StatusUnprocessableEntity)%Z then
        mret (None, Some (newErrUnprocessableEntity (resty.Body resp)))
      else
        mret (None,
              Some (newErrUnexpectedStatusCode (resty.StatusCode resp)
                      (resty.Body resp)))
  end.
End Service.
End Structured.

(** ** [src/repositories.go]: the service with sentinel errors only *)

Module Sentinel.
(** The three sentinels, the value [fmt.Errorf] builds around one of them
    with the verb [%w], and the client's own errors. *)
Inductive error : Type :=
| ErrRepoNotFound
| ErrUnprocessableEntity
| ErrUnexpectedStatusCode
| wrapError (msg : string) (err : error)
| ClientError (msg : string).

Definition Error (e : error) : string :=
  match e with
  | ErrRepoNotFound =>
      "repo was not found (status code " +:+ pretty http.StatusNotFound
      +:+ ")"
  | ErrUnprocessableEntity =>
      "unprocessable entity (status code "
      +:+ pretty http.StatusUnprocessableEntity +:+ ")"
  | ErrUnexpectedStatusCode => "unexpected status code on response"
  | wrapError msg _ => msg
  | ClientError msg => msg
  end.

Definition Unwrap (e : error) : option error :=
  match e with
  | wrapError _ err => Some err
  | _ => None
  end.

#[global] Instance error_eq_dec : EqDecision error.
Proof. solve_decision. Defined.

(** [errors.Is(err, target)]: [err] or an error it wraps is [target]. *)
Fixpoint Is (err target : error) : bool :=
  bool_decide (err = target)
  || match err with
     | wrapError _ inner => Is inner target
     | _ => false
     end.

(** [fmt.Errorf("status code %d: %w", c, err)] *)
Definition Errorf_status (c : Z) (err : error) : error :=
  wrapError ("status code " +:+ pretty c +:+ ": " +:+ Error err) err.

Section Service.
Context {World : Type} `{!Lexical} `{!resty.Transport error World}.

Definition Get (s : service) (ctx : Context) (svc repo : string)
    : Call World (option Repository * option error) :=
  let url := HostURL (client s) +:+ "/api/repos/" +:+ svc +:+ "/" +:+ repo in
  '(resp, err) ← resty.Get url
      (resty.SetResult Repository.zero
         (resty.SetContext ctx (resty.R (client_ (client s)))));
  match err with
  | Some e => mret (None, Some e)
  | None =>
      if (resty.StatusCode resp =? http.StatusOK)%Z then
        mret (Some (resty.Result resp), None)
      else if (resty.StatusCode resp =? http.StatusNotFound)%Z then
        mret (None, Some ErrRepoNotFound)
      else
        mret (None,
              Some (Errorf_status (resty.StatusCode resp)
                      ErrUnexpectedStatusCode))
  end.

Definition Add (s : service) (ctx : Context) (data : option RepositoryConfig)
    : Call World (option RepositoryConfig * option error) :=
  let url := HostURL (client s) +:+ "/api/repos" in
  let body : gmap string (option RepositoryConfig) := {[ "repo" := data ]} in
  '(resp, err) ← resty.Post url
      (resty.SetResult RepositoryConfig.zero
         (resty.SetBody body
            (resty.SetContext ctx (resty.R (client_ (client s))))));
  match err with
  | Some e => mret (None, Some e)
  | None =>
      if (resty.StatusCode resp =? http.StatusCreated)%Z then
        mret (Some (resty.Result resp), None)
      else if (resty.StatusCode resp =? http.StatusUnprocessableEntity)%Z then
        mret (None, Some ErrUnprocessableEntity)
      else
        mret (None,
              Some (Errorf_status (resty.StatusCode resp)
                      ErrUnexpectedStatusCode))
  end.

Definition Update (s : service) (ctx : Context) (svc repo : string)
    (data : option RepositoryConfig)
    : Call World (option RepositoryConfig * option error) :=
  let url := HostURL (client s) +:+ "/api/repos/" +:+ svc +:+ "/" +:+ repo in
  let body : gmap string (option RepositoryConfig) := {[ "repo" := data ]} in
  '(resp, err) ← resty.Put url
      (resty.SetResult RepositoryConfig.zero
         (resty.SetBody body
            (resty.SetContext ctx (resty.R (client_ (client s))))));
  match err with
  | Some e => mret (None, Some e)
  | None =>
      if (resty.StatusCode resp =? http.StatusOK)%Z then
        mret (Some (resty.Result resp), None)
      else if (resty.StatusCode resp =? http.StatusUnprocessableEntity)%Z then
        mret (None, Some ErrUnprocessableEntity)
      else
        mret (None,
              Some (Errorf_status (resty.StatusCode resp)
                      ErrUnexpectedStatusCode))
  end.
End Service.
End Sentinel.

(** ** A scripted transport

    The package's tests put [httpmock] in place of the network: every
    request is answered from a script and recorded.  The same device gives
    the statements below something to observe.  It behaves as resty does:
    the URL is parsed and the body serialised before anything is sent (a
    URL that does not parse or a body that cannot be serialised stops the
    call), and the body of an answer is decoded into the result target
    when the status is 2xx and not 204 and the Content-Type names JSON. *)

Module httpmock.
(** One recorded request, as it went over the wire.  [SentHeader] holds
    the headers set on the client; resty adds its own besides. *)
Record Sent : Type := {
  SentVerb : resty.Method;
  SentURL : string;
  SentHeader : gmap string string;
  SentCtx : option Context;
  SentJSON : option JSON
}.

(** A scripted answer: a failure of the exchange, or a response with its
    status, with whether its Content-Type names JSON, and with its body
    text.  A response has no other header (no Location, so the HTTP
    client has nothing to follow), and XML content types are left out. *)
Inductive Reply (E : Type) : Type :=
| Fail (e : E)
| Answer (status : Z) (json : bool) (body : string).
Arguments Fail {E}.
Arguments Answer {E}.

(** The errors the client itself raises are the world's to name: for a
    URL that does not parse, a body that cannot be serialised, a response
    that is not JSON though it says so, and a document that does not fit
    the result type. *)
Record World (E : Type) : Type := {
  respond : list Sent -> Sent -> Reply E;
  urlError : E;
  marshalError : E;
  syntaxError : E;
  unmarshalError : E;
  calls : list Sent
}.
Arguments respond {E}.
Arguments urlError {E}.
Arguments marshalError {E}.
Arguments syntaxError {E}.
Arguments unmarshalError {E}.
Arguments calls {E}.

Definition record {E : Type} (sent : Sent) (w : World E) : World E :=
  {| respond := respond w; urlError := urlError w;
     marshalError := marshalError w; syntaxError := syntaxError w;
     unmarshalError := unmarshalError w; calls := calls w ++ [sent] |}.

Definition IsSuccess (status : Z) : bool :=
  (199 <? status)%Z && (status <? 300)%Z.

(** The request as it goes out: to the parsed URL, with the serialised
    body, with the headers set on the client (resty adds its own
    besides). *)
Definition outgoing {T : Type} (req : resty.Request T) (url : string)
    (wire : option JSON) : Sent :=
  {| SentVerb := resty.Verb req; SentURL := url;
     SentHeader := resty.Header (resty.client req);
     SentCtx := resty.Ctx req; SentJSON := wire |}.

Section Mock.
Context {E : Type} `{!Lexical} `{!Wire}.

(** One round trip, and what resty makes of the response: the body is
    decoded into the result target when the status is 2xx and not 204 and
    the Content-Type names JSON; otherwise the target stays as it was. *)
Definition exchange {T : Type} `{!Unmarshaler T} (req : resty.Request T)
    (url : string) (wire : option JSON)
    : Call (World E) (resty.Response T * option E) :=
  fun w =>
    let sent := outgoing req url wire in
    let w' := record sent w in
    let untouched status body :=
      {| resty.StatusCode := status; resty.Body := body;
         resty.Result := resty.ResultTarget req |} in
    match respond w (calls w) sent with
    | Fail e => ((untouched 0%Z "", Some e), w')
    | Answer status json body =>
        if json && IsSuccess status && negb (status =? 204)%Z then
          match ParseJSON body with
          | Some j =>
              match Unmarshal j (resty.ResultTarget req) with
              | Some t =>
                  (({| resty.StatusCode := status; resty.Body := body;
                       resty.Result := t |}, None), w')
              | None => ((untouched status body, Some (unmarshalError w)), w')
              end
          | None => ((untouched status body, Some (syntaxError w)), w')
          end
        else ((untouched status body, None), w')
    end.

(** resty's [Execute]: the URL is parsed, then the body serialised, and
    only then does a request go out. *)
#[global] Instance transport : resty.Transport E (World E) :=
  fun T _ req w =>
    let unsent (e : E) :=
      (({| resty.StatusCode := 0; resty.Body := "";
           resty.Result := resty.ResultTarget req |}, Some e), w) in
    match ParseURL (resty.URL req) with
    | None => unsent (urlError w)
    | Some url =>
        match resty.ReqBody req with
        | None => exchange req url None w
        | Some body =>
            match marshalBody body with
            | Some j => exchange req url (Some j) w
            | None => unsent (marshalError w)
            end
        end
    end.
End Mock.
End httpmock.

(** ** Fixtures for the worked examples

    A small [strconv]: decimal integer literals, the float literals the
    examples use, ASCII case folding. *)

Module Fixture.
Definition digit (c : ascii) : option Z :=
  let n := Z.of_N (N_of_ascii c) in
  if (48 <=? n)%Z && (n <=? 57)%Z then Some (n - 48)%Z else None.

Fixpoint digits (acc : Z) (s : string) : option Z :=
  match s with
  | EmptyString => Some acc
  | String c s' =>
      match digit c with
      | Some d => digits (10 * acc + d)%Z s'
      | None => None
      end
  end.

Definition parseInt (lit : string) : option Z :=
  match lit with
  | EmptyString => None
  | String "-" (String c s') => Z.opp <$> digits 0 (String c s')
  | _ => digits 0 lit
  end.

Definition lower (c : ascii) : ascii :=
  let n := N_of_ascii c in
  if (65 <=? n)%N && (n <=? 90)%N then ascii_of_N (n + 32) else c.

Fixpoint lowerString (s : string) : string :=
  match s with
  | EmptyString => EmptyString
  | String c s' => String (lower c) (lowerString s')
  end.

Definition parseFloat (lit : string) : option float64 :=
  if String.eqb lit "80.5" then Some 80.5%float
  else if String.eqb lit "5" then Some 5%float
  else if String.eqb lit "0" then Some 0%float
  else None.

Definition formatFloat (f : float64) : string :=
  if PrimFloat.eqb f 80.5%float then "80.5"
  else if PrimFloat.eqb f 5%float then "5"
  else "0".

Definition lexical : Lexical := {|
  FormatFloat := formatFloat;
  ParseFloat := parseFloat;
  ParseInt := parseInt;
  EqualFold := fun a b => String.eqb (lowerString a) (lowerString b)
|}.

Definition ctx : Context := {| Deadline := Some 30%Z; Cancelled := false |}.

Definition svc : service := Repositories (NewClient "s3cr3t").

(** A config with only [service] and [name] set. *)
Definition minimal : RepositoryConfig :=
  {| RepositoryConfig.Service := "github";
     RepositoryConfig.Name := "org/repo";
     RepositoryConfig.CommentOnPullRequests := None;
     RepositoryConfig.SendBuildStatus := None;
     RepositoryConfig.CommitStatusFailThreshold := None;
     RepositoryConfig.CommitStatusFailChangeThreshold := None |}.

(** A config with every optional field set. *)
Definition full : RepositoryConfig :=
  {| RepositoryConfig.Service := "github";
     RepositoryConfig.Name := "org/repo";
     RepositoryConfig.CommentOnPullRequests := Some false;
     RepositoryConfig.SendBuildStatus := Some true;
     RepositoryConfig.CommitStatusFailThreshold := Some 80.5%float;
     RepositoryConfig.CommitStatusFailChangeThreshold := Some 5%float |}.

(** A world that answers every request the same way. *)
Definition always {E : Type} (failure : E) (reply : httpmock.Reply E)
    : httpmock.World E :=
  {| httpmock.respond := fun _ _ => reply;
     httpmock.urlError := failure;
     httpmock.marshalError := failure;
     httpmock.syntaxError := failure;
     httpmock.unmarshalError := failure;
     httpmock.calls := [] |}.

Definition answering (status : Z) (body : string)
    : httpmock.World Structured.error :=
  always (Structured.ClientError "json") (httpmock.Answer status false body).

Definition answeringSentinel (status : Z) (body : string)
    : httpmock.World Sentinel.error :=
  always (Sentinel.ClientError "json") (httpmock.Answer status false body).

(** A world in which every exchange fails with [e]. *)
Definition failing (e : Structured.error) : httpmock.World Structured.error :=
  always (Structured.ClientError "json") (httpmock.Fail e).

(** JSON text, for bodies (strings are written out unescaped). *)
Definition quote (s : string) : string :=
  String (ascii_of_nat 34) (s +:+ String (ascii_of_nat 34) "").

Definition joined (parts : list string) : string :=
  match parts with
  | [] => ""
  | p :: ps => fold_left (fun acc q => acc +:+ "," +:+ q) ps p
  end.

Fixpoint render (j : JSON) : string :=
  match j with
  | JNull => "null"
  | JBool true => "true"
  | JBool false => "false"
  | JNumber lit => lit
  | JString s => quote s
  | JArray items => "[" +:+ joined (List.map render items) +:+ "]"
  | JObject members =>
      "{"
      +:+ joined (List.map (fun m => quote m.1 +:+ ":" +:+ render m.2) members)
      +:+ "}"
  end.

(** A world that answers every request with a JSON document, declared
    as JSON. *)
Definition answeringJSON (status : Z) (document : JSON)
    : httpmock.World Structured.error :=
  always (Structured.ClientError "json")
    (httpmock.Answer status true (render document)).


(** The body of a repository as the API returns it, with one optional
    field present and the others left out. *)
Definition repositoryBody : list (string * JSON) :=
  [("id", JNumber "1234"); ("name", JString "org/repo");
   ("service", JString "github"); ("send_build_status", JBool false);
   ("has_badge", JBool true); ("token", JString "t0k3n");
   ("created_at", JString "2020-01-01T00:00:00Z");
   ("badge_url", JString "https://coveralls.io/badge.svg")].

(** A body with explicit nulls, as the API sends unset thresholds. *)
Definition nullBody : list (string * JSON) :=
  [("id", JNumber "1234"); ("name", JString "org/repo");
   ("commit_status_fail_threshold", JNull);
   ("commit_status_fail_change_threshold", JNull)].

Definition configBody : list (string * JSON) :=
  [("service", JString "github"); ("name", JString "org/repo");
   ("commit_status_fail_threshold", JNumber "80.5")].

(** A body that spells a field name in another case. *)
Definition shoutedBody : list (string * JSON) :=
  [("name", JString "org/repo"); ("SEND_BUILD_STATUS", JBool true)].

(** A small scanner: it knows the texts of the documents above. *)
Definition parseJSON (text : string) : option JSON :=
  List.find (fun j => String.eqb (render j) text)
    [JObject repositoryBody; JObject nullBody; JObject configBody;
     JObject shoutedBody].

(** A small [url.Parse]: a string of letters, digits and [/ : . _ -] is a
    URL and is written back as it is; anything else is refused. *)
Definition plain (c : ascii) : bool :=
  between 97 122 c || between 65 90 c || between 45 58 c || between 95 95 c.

Fixpoint allPlain (s : string) : bool :=
  match s with
  | EmptyString => true
  | String c s' => plain c && allPlain s'
  end.

Definition parseURL (raw : string) : option string :=
  if allPlain raw then Some raw else None.

Definition wire : Wire := {| ParseJSON := parseJSON; ParseURL := parseURL |}.
End Fixture.

(** ** Vocabulary of the statements *)

(** [sub] occurs somewhere in [s]. *)
Definition Substring (sub s : string) : Prop :=
  exists pre post : string, s = pre +:+ sub +:+ post.

(** What a method returns: a result and a nil error, or a nil result and
    an error. *)
Definition ResultOrError {A E : Type} (o : option A * option E) : Prop :=
  (is_Some o.1 /\ o.2 = None) \/ (o.1 = None /\ is_Some o.2).

(** What a client made by [NewClient t] puts on every request. *)
Definition Authorised `{!Wire} (t : string) (ctx : Context)
    (sent : httpmock.Sent) : Prop :=
  httpmock.SentHeader sent !! "Authorization" = Some ("token " +:+ t)
  /\ httpmock.SentHeader sent !! "Accept" = Some "application/json"
  /\ (exists raw : string,
        HasPrefix raw "https://coveralls.io/api/repos" = true
        /\ ParseURL raw = Some (httpmock.SentURL sent))
  /\ httpmock.SentCtx sent = Some ctx.

(** The content of a struct field, as reflection shows it: the kinds of
    field the two structs have. *)
Inductive value : Type :=
| VInt (i : Z)
| VString (s : string)
| VBool (b : bool)
| VBoolPtr (p : option bool)
| VFloatPtr (p : option float64).

Definition getRepository (f : Repository.field) (r : Repository) : value :=
  match f with
  | Repository.fID => VInt (Repository.ID r)
  | Repository.fName => VString (Repository.Name r)
  | Repository.fService => VString (Repository.Service r)
  | Repository.fCommentOnPullRequests =>
      VBoolPtr (Repository.CommentOnPullRequests r)
  | Repository.fSendBuildStatus => VBoolPtr (Repository.SendBuildStatus r)
  | Repository.fCommitStatusFailThreshold =>
      VFloatPtr (Repository.CommitStatusFailThreshold r)
  | Repository.fCommitStatusFailChangeThreshold =>
      VFloatPtr (Repository.CommitStatusFailChangeThreshold r)
  | Repository.fHasBadge => VBool (Repository.HasBadge r)
  | Repository.fToken => VString (Repository.Token r)
  | Repository.fCreatedAt => VString (Repository.CreatedAt r)
  | Repository.fUpdatedAt => VString (Repository.UpdatedAt r)
  end.

Definition getRepositoryConfig (f : RepositoryConfig.field)
    (c : RepositoryConfig) : value :=
  match f with
  | RepositoryConfig.fService => VString (RepositoryConfig.Service c)
  | RepositoryConfig.fName => VString (RepositoryConfig.Name c)
  | RepositoryConfig.fCommentOnPullRequests =>
      VBoolPtr (RepositoryConfig.CommentOnPullRequests c)
  | RepositoryConfig.fSendBuildStatus =>
      VBoolPtr (RepositoryConfig.SendBuildStatus c)
  | RepositoryConfig.fCommitStatusFailThreshold =>
      VFloatPtr (RepositoryConfig.CommitStatusFailThreshold c)
  | RepositoryConfig.fCommitStatusFailChangeThreshold =>
      VFloatPtr (RepositoryConfig.CommitStatusFailChangeThreshold c)
  end.

Section Fidelity.
Context `{!Lexical}.

(** The Go value a JSON value turns into, for a field that held [old]. *)
Definition storeValue (v : JSON) (old : value) : option value :=
  match old with
  | VInt i => VInt <$> storeInt v i
  | VString s => VString <$> storeString v s
  | VBool b => VBool <$> storeBool v b
  | VBoolPtr p => VBoolPtr <$> storeBoolPtr v p
  | VFloatPtr p => VFloatPtr <$> storeFloatPtr v p
  end.

(** A body is written the way the wire format spells it when no key
    occurs twice and no key is a mere case variant of a field name. *)
Definition canonical {F : Type} (tag : F -> string) (fields : list F)
    (members : list (string * JSON)) : bool :=
  bool_decide (NoDup members.*1)
  && forallb
       (fun key =>
          existsb (fun f => String.eqb (tag f) key) fields
          || negb (existsb (fun f => EqualFold (tag f) key) fields))
       members.*1.

(** The record [t] holds what the object [members] says, field by field:
    under a key that is present, that member's value as a Go value; under
    a key that is absent, what [zero] holds. *)
Definition DecodedFrom {F T : Type} (tag : F -> string)
    (get : F -> T -> value) (members : list (string * JSON))
    (zero t : T) : Prop :=
  forall f : F,
    match (list_to_map members : gmap string JSON) !! tag f with
    | Some v => storeValue v (get f zero) = Some (get f t)
    | None => get f t = get f zero
    end.



End Fidelity.

(** An optional field whose key the object does not have is nil. *)
Definition OmittedNilRepository (members : list (string * JSON))
    (r : Repository) : Prop :=
  ("comment_on_pull_requests" ∉ members.*1 ->
   Repository.CommentOnPullRequests r = None)
  /\ ("send_build_status" ∉ members.*1 ->
      Repository.SendBuildStatus r = None)
  /\ ("commit_status_fail_threshold" ∉ members.*1 ->
      Repository.CommitStatusFailThreshold r = None)
  /\ ("commit_status_fail_change_threshold" ∉ members.*1 ->
      Repository.CommitStatusFailChangeThreshold r = None).

Definition OmittedNilConfig (members : list (string * JSON))
    (c : RepositoryConfig) : Prop :=
  ("comment_on_pull_requests" ∉ members.*1 ->
   RepositoryConfig.CommentOnPullRequests c = None)
  /\ ("send_build_status" ∉ members.*1 ->
      RepositoryConfig.SendBuildStatus c = None)
  /\ ("commit_status_fail_threshold" ∉ members.*1 ->
      RepositoryConfig.CommitStatusFailThreshold c = None)
  /\ ("commit_status_fail_change_threshold" ∉ members.*1 ->
      RepositoryConfig.CommitStatusFailChangeThreshold c = None).

(** * Verification *)

(** ** Substrings *)

Lemma append_assoc (a b c : string) : (a +:+ b) +:+ c = a +:+ b +:+ c.
Proof.
  induction a as [|x a IH]; [reflexivity|].
  change (String x ((a +:+ b) +:+ c) = String x (a +:+ b +:+ c)).
  now rewrite IH.
Qed.

Lemma HasPrefix_spec (prefix s : string) :
  HasPrefix s prefix = true <-> exists post, s = prefix +:+ post.
Proof.
  revert s. induction prefix as [|c prefix IH]; intros s; simpl.
  - split; [intros _; now exists s | reflexivity].
  - destruct s as [|d s]; simpl.
    + split; [discriminate | intros [post Hp]; discriminate].
    + rewrite andb_true_iff, IH. split.
      * intros [Hc [post ->]]. apply Ascii.eqb_eq in Hc. subst d.
        now exists post.
      * intros [post Hp]. injection Hp as -> ->. split.
        -- apply Ascii.eqb_refl.
        -- now exists post.
Qed.

Lemma Contains_spec (s sub : string) :
  Contains s sub = true <-> Substring sub s.
Proof.
  unfold Substring. induction s as [|a s IH]; simpl.
  - rewrite orb_false_r, HasPrefix_spec. split.
    + intros [post Hp]. now exists "", post.
    + intros [pre [post Hp]]. destruct pre; [|discriminate].
      simpl in Hp. now exists post.
  - rewrite orb_true_iff, IH.
    change (match sub with
            | "" => true
            | String c prefix' => Ascii.eqb c a && HasPrefix s prefix'
            end) with (HasPrefix (String a s) sub).
    rewrite HasPrefix_spec. split.
    + intros [[post Hp] | [pre [post Hp]]].
      * now exists "", post.
      * exists (String a pre), post. simpl. now rewrite Hp.
    + intros [pre [post Hp]]. destruct pre as [|b pre]; simpl in Hp.
      * left. now exists post.
      * right. injection Hp as -> ->. now exists pre, post.
Qed.

Lemma Contains_false (s sub : string) :
  Contains s sub = false <-> ~ Substring sub s.
Proof.
  rewrite <- Contains_spec. destruct (Contains s sub); split; intros;
    congruence.
Qed.

(** ** Status codes and errors in [src/unnamed/part_000] *)

(** Unfolds the monadic plumbing of a service call. *)
Ltac unfold_call :=
  unfold Structured.Get, Structured.Add, Structured.Update,
         Sentinel.Get, Sentinel.Add, Sentinel.Update;
  unfold mbind, Call_bind, mret, Call_ret.

(** Decides the status tests of a [switch], given the status. *)
Ltac switch_on Hstatus :=
  rewrite Hstatus;
  unfold http.StatusOK, http.StatusCreated, http.StatusNotFound,
         http.StatusUnprocessableEntity;
  simpl Z.eqb.

Section StructuredErrors.
Context {World : Type} `{!Lexical} `{!resty.Transport Structured.error World}.
Implicit Types (s : service) (ctx : Context) (svc repo : string).
Implicit Types (data : option RepositoryConfig) (w : World).

(** The exchanges the three methods start. *)
Local Abbreviation GetExchange s ctx svc repo :=
  (resty.Get
     (HostURL (client s) +:+ "/api/repos/" +:+ svc +:+ "/" +:+ repo)
     (resty.SetResult Repository.zero
        (resty.SetContext ctx (resty.R (client_ (client s)))))).

Local Abbreviation AddExchange s ctx data :=
  (resty.Post
     (HostURL (client s) +:+ "/api/repos")
     (resty.SetResult RepositoryConfig.zero
        (resty.SetBody
           ({[ "repo" := data ]} : gmap string (option RepositoryConfig))
           (resty.SetContext ctx (resty.R (client_ (client s))))))).

Local Abbreviation UpdateExchange s ctx svc repo data :=
  (resty.Put
     (HostURL (client s) +:+ "/api/repos/" +:+ svc +:+ "/" +:+ repo)
     (resty.SetResult RepositoryConfig.zero
        (resty.SetBody
           ({[ "repo" := data ]} : gmap string (option RepositoryConfig))
           (resty.SetContext ctx (resty.R (client_ (client s))))))).

(** An error of the client is handed on as it is, with no result. *)
Lemma Get_client_error s ctx svc repo w resp e w' :
  GetExchange s ctx svc repo w = ((resp, Some e), w') ->
  Structured.Get s ctx svc repo w = ((None, Some e), w').
Proof. intros Hx. unfold_call. now rewrite Hx. Qed.

Lemma Add_client_error s ctx data w resp e w' :
  AddExchange s ctx data w = ((resp, Some e), w') ->
  Structured.Add s ctx data w = ((None, Some e), w').
Proof. intros Hx. unfold_call. now rewrite Hx. Qed.

Lemma Update_client_error s ctx svc repo data w resp e w' :
  UpdateExchange s ctx svc repo data w = ((resp, Some e), w') ->
  Structured.Update s ctx svc repo data w = ((None, Some e), w').
Proof. intros Hx. unfold_call. now rewrite Hx. Qed.

(** The [switch] of [Add] at status 422, as one equation. *)
Lemma Add_422 s ctx data w resp w' :
  AddExchange s ctx data w = ((resp, None), w') ->
  resty.StatusCode resp = http.StatusUnprocessableEntity ->
  Structured.Add s ctx data w =
    ((None,
      Some (if Contains (resty.Body resp) "has already been taken"
            then Structured.ErrNameIsTaken
            else Structured.ErrUnprocessableEntity (resty.Body resp))),
     w').
Proof.
  intros Hx Hstatus. unfold_call. rewrite Hx. switch_on Hstatus.
  now destruct (Contains (resty.Body resp) "has already been taken").
Qed.

(** C1. [Add]: when the response has status 422 and its body contains the
    marker of a name already registered, "has already been taken" (as in
    "Name has already been taken"), the call returns no result and the
    error [ErrNameIsTaken]. *)
Theorem Add_422_name_taken s ctx data w resp w' :
  AddExchange s ctx data w = ((resp, None), w') ->
  resty.StatusCode resp = http.StatusUnprocessableEntity ->
  Substring "has already been taken" (resty.Body resp) ->
  Structured.Add s ctx data w = ((None, Some Structured.ErrNameIsTaken), w').
Proof.
  intros Hx Hstatus Hmarker. rewrite (Add_422 _ _ _ _ _ _ Hx Hstatus).
  apply Contains_spec in Hmarker. now rewrite Hmarker.
Qed.

(** C2. [Add]: when the response has status 422 and its body does not
    contain the marker (as with "Service is invalid"), the call returns no
    result and an [ErrUnprocessableEntity] whose [ErrorBody] is the whole
    body; the error is not [ErrNameIsTaken]. *)
Theorem Add_422_unprocessable s ctx data w resp w' :
  AddExchange s ctx data w = ((resp, None), w') ->
  resty.StatusCode resp = http.StatusUnprocessableEntity ->
  ~ Substring "has already been taken" (resty.Body resp) ->
  Structured.Add s ctx data w =
    ((None, Some (Structured.ErrUnprocessableEntity (resty.Body resp))), w')
  /\ (Structured.Add s ctx data w).1.2 <> Some Structured.ErrNameIsTaken.
Proof.
  intros Hx Hstatus Hmarker. rewrite (Add_422 _ _ _ _ _ _ Hx Hstatus).
  apply Contains_false in Hmarker. rewrite Hmarker. now split.
Qed.

(** C3. [Update]: when the response has status 404, the call returns no
    result and the error [ErrRepoNotFound]. *)
Theorem Update_404_not_found s ctx svc repo data w resp w' :
  UpdateExchange s ctx svc repo data w = ((resp, None), w') ->
  resty.StatusCode resp = http.StatusNotFound ->
  Structured.Update s ctx svc repo data w =
    ((None, Some Structured.ErrRepoNotFound), w').
Proof.
  intros Hx Hstatus. unfold_call. rewrite Hx. now switch_on Hstatus.
Qed.

(** C4. [Get]: when the status of the response is neither 200 nor 404 (as
    with 500 and the body "server error"), the call returns no result and
    an [ErrUnexpectedStatusCode] holding that status and the body. *)
Theorem Get_unexpected_status s ctx svc repo w resp w' :
  GetExchange s ctx svc repo w = ((resp, None), w') ->
  resty.StatusCode resp <> http.StatusOK ->
  resty.StatusCode resp <> http.StatusNotFound ->
  Structured.Get s ctx svc repo w =
    ((None,
      Some (Structured.ErrUnexpectedStatusCode (resty.StatusCode resp)
              (resty.Body resp))), w').
Proof.
  intros Hx Hok Hmissing. unfold_call. rewrite Hx.
  apply Z.eqb_neq in Hok, Hmissing. now rewrite Hok, Hmissing.
Qed.

(** C5. [Update]: when the response has status 422, the call returns no
    result and an [ErrUnprocessableEntity] holding the body, whatever the
    body says; the error is never [ErrNameIsTaken]. *)
Theorem Update_422_unprocessable s ctx svc repo data w resp w' :
  UpdateExchange s ctx svc repo data w = ((resp, None), w') ->
  resty.StatusCode resp = http.StatusUnprocessableEntity ->
  Structured.Update s ctx svc repo data w =
    ((None, Some (Structured.ErrUnprocessableEntity (resty.Body resp))), w')
  /\ (Structured.Update s ctx svc repo data w).1.2
     <> Some Structured.ErrNameIsTaken.
Proof.
  intros Hx Hstatus.
  assert (Structured.Update s ctx svc repo data w =
    ((None, Some (Structured.ErrUnprocessableEntity (resty.Body resp))), w'))
    as Hrun.
  { unfold_call. rewrite Hx. now switch_on Hstatus. }
  now rewrite Hrun.
Qed.

(** C10. [Add] at status 422 looks for "has already been taken" and for
    nothing else: the error is [ErrNameIsTaken] exactly when that phrase
    occurs in the body, whichever attribute the sentence is about. *)
Theorem Add_422_marker_only s ctx data w resp w' :
  AddExchange s ctx data w = ((resp, None), w') ->
  resty.StatusCode resp = http.StatusUnprocessableEntity ->
  (Structured.Add s ctx data w = ((None, Some Structured.ErrNameIsTaken), w')
   <-> Substring "has already been taken" (resty.Body resp))
  /\ forall attribute pre post : string,
       resty.Body resp
         = pre +:+ attribute +:+ " has already been taken" +:+ post ->
       Structured.Add s ctx data w
         = ((None, Some Structured.ErrNameIsTaken), w').
Proof.
  intros Hx Hstatus. rewrite (Add_422 _ _ _ _ _ _ Hx Hstatus).
  assert ((None (A:=RepositoryConfig),
           Some (if Contains (resty.Body resp) "has already been taken"
                 then Structured.ErrNameIsTaken
                 else Structured.ErrUnprocessableEntity (resty.Body resp)),
           w') = (None, Some Structured.ErrNameIsTaken, w')
          <-> Substring "has already been taken" (resty.Body resp)) as Hiff.
  { rewrite <- Contains_spec.
    destruct (Contains (resty.Body resp) "has already been taken");
      split; intros; congruence. }
  split; [exact Hiff|].
  intros attribute pre post Hbody. apply Hiff.
  exists (pre +:+ attribute +:+ " "), post. rewrite Hbody.
  now rewrite !append_assoc.
Qed.

(** The two shapes shut out the other two: both values, or neither. *)
Lemma ResultOrError_exclusive {A E : Type} (o : option A * option E) :
  ResultOrError o ->
  ~ (is_Some o.1 /\ is_Some o.2) /\ ~ (o.1 = None /\ o.2 = None).
Proof.
  intros [[Hres Herr] | [Hres Herr]]; split; intros [H1 H2].
  - rewrite Herr in H2. now apply is_Some_None in H2.
  - rewrite H1 in Hres. now apply is_Some_None in Hres.
  - rewrite Hres in H1. now apply is_Some_None in H1.
  - rewrite H2 in Herr. now apply is_Some_None in Herr.
Qed.

(** C9. Every call of [Get], [Add] and [Update] returns either a result
    and a nil error, or a nil result and an error: never both, never
    neither. *)
Theorem result_xor_error s ctx svc repo data w :
  ResultOrError (Structured.Get s ctx svc repo w).1
  /\ ResultOrError (Structured.Add s ctx data w).1
  /\ ResultOrError (Structured.Update s ctx svc repo data w).1.
Proof.
  unfold ResultOrError. unfold_call. split; [|split].
  - destruct (GetExchange s ctx svc repo w) as [[resp [e|]] w']; simpl;
      [right; eauto|].
    repeat match goal with |- context [if ?b then _ else _] => destruct b end;
      simpl; eauto.
  - destruct (AddExchange s ctx data w) as [[resp [e|]] w']; simpl;
      [right; eauto|].
    repeat match goal with |- context [if ?b then _ else _] => destruct b end;
      simpl; eauto.
  - destruct (UpdateExchange s ctx svc repo data w) as [[resp [e|]] w'];
      simpl; [right; eauto|].
    repeat match goal with |- context [if ?b then _ else _] => destruct b end;
      simpl; eauto.
Qed.
End StructuredErrors.

(** *** The same, run against scripted answers *)

Section StructuredExamples.
#[local] Existing Instance Fixture.lexical.
#[local] Existing Instance Fixture.wire.

Lemma Add_422_name_taken_witness :
  (Structured.Add Fixture.svc Fixture.ctx (Some Fixture.full)
     (Fixture.answering 422 "Name has already been taken")).1
  = (None, Some Structured.ErrNameIsTaken).
Proof.
  refine (f_equal fst
            (Add_422_name_taken Fixture.svc Fixture.ctx (Some Fixture.full)
               (Fixture.answering 422 "Name has already been taken")
               _ _ _ _ _)).
  - reflexivity.
  - reflexivity.
  - exists "Name ", "". reflexivity.
Defined.

Lemma Add_422_unprocessable_witness :
  (Structured.Add Fixture.svc Fixture.ctx (Some Fixture.full)
     (Fixture.answering 422 "Service is invalid")).1
  = (None, Some (Structured.ErrUnprocessableEntity "Service is invalid")).
Proof.
  edestruct (Add_422_unprocessable Fixture.svc Fixture.ctx
               (Some Fixture.full)
               (Fixture.answering 422 "Service is invalid")) as [Hrun _].
  - reflexivity.
  - reflexivity.
  - apply Contains_false. reflexivity.
  - rewrite Hrun. reflexivity.
Defined.

Lemma Update_404_not_found_witness :
  (Structured.Update Fixture.svc Fixture.ctx "github" "org/repo"
     (Some Fixture.minimal) (Fixture.answering 404 "Not Found")).1
  = (None, Some Structured.ErrRepoNotFound).
Proof.
  refine (f_equal fst
            (Update_404_not_found Fixture.svc Fixture.ctx "github" "org/repo"
               (Some Fixture.minimal) (Fixture.answering 404 "Not Found")
               _ _ _ _)).
  - reflexivity.
  - reflexivity.
Defined.

Lemma Get_unexpected_status_witness :
  (Structured.Get Fixture.svc Fixture.ctx "github" "org/repo"
     (Fixture.answering 500 "server error")).1
  = (None, Some (Structured.ErrUnexpectedStatusCode 500 "server error")).
Proof.
  erewrite (Get_unexpected_status Fixture.svc Fixture.ctx "github"
              "org/repo" (Fixture.answering 500 "server error")); cycle 1.
  - reflexivity.
  - discriminate.
  - discriminate.
  - reflexivity.
Defined.

Lemma Update_422_unprocessable_witness :
  (Structured.Update Fixture.svc Fixture.ctx "github" "org/repo"
     (Some Fixture.full)
     (Fixture.answering 422 "Name has already been taken")).1
  = (None,
     Some (Structured.ErrUnprocessableEntity "Name has already been taken")).
Proof.
  edestruct (Update_422_unprocessable Fixture.svc Fixture.ctx "github"
               "org/repo" (Some Fixture.full)
               (Fixture.answering 422 "Name has already been taken"))
    as [Hrun _].
  - reflexivity.
  - reflexivity.
  - rewrite Hrun. reflexivity.
Defined.

Lemma Add_422_marker_only_witness :
  (Structured.Add Fixture.svc Fixture.ctx (Some Fixture.full)
     (Fixture.answering 422 "Email has already been taken")).1
  = (None, Some Structured.ErrNameIsTaken).
Proof.
  refine (f_equal fst
            (proj2
               (Add_422_marker_only Fixture.svc Fixture.ctx
                  (Some Fixture.full)
                  (Fixture.answering 422 "Email has already been taken")
                  _ _ _ _)
               "Email" "" "" _)).
  - reflexivity.
  - reflexivity.
  - reflexivity.
Defined.
End StructuredExamples.

(** ** What [src/repositories.go] does with the same answers *)

Section SentinelErrors.
Context {World : Type} `{!Lexical} `{!resty.Transport Sentinel.error World}.
Implicit Types (s : service) (ctx : Context) (svc repo : string).
Implicit Types (data : option RepositoryConfig) (w : World).

(** [Add] at status 422 never reads the body. *)
Lemma Sentinel_Add_422 s ctx data w resp w' :
  resty.Post
    (HostURL (client s) +:+ "/api/repos")
    (resty.SetResult RepositoryConfig.zero
       (resty.SetBody
          ({[ "repo" := data ]} : gmap string (option RepositoryConfig))
          (resty.SetContext ctx (resty.R (client_ (client s)))))) w
    = ((resp, None), w') ->
  resty.StatusCode resp = http.StatusUnprocessableEntity ->
  Sentinel.Add s ctx data w = ((None, Some Sentinel.ErrUnprocessableEntity), w').
Proof.
  intros Hx Hstatus. unfold_call. rewrite Hx. now switch_on Hstatus.
Qed.

(** [Update] has no case for status 404. *)
Lemma Sentinel_Update_404 s ctx svc repo data w resp w' :
  resty.Put
    (HostURL (client s) +:+ "/api/repos/" +:+ svc +:+ "/" +:+ repo)
    (resty.SetResult RepositoryConfig.zero
       (resty.SetBody
          ({[ "repo" := data ]} : gmap string (option RepositoryConfig))
          (resty.SetContext ctx (resty.R (client_ (client s)))))) w
    = ((resp, None), w') ->
  resty.StatusCode resp = http.StatusNotFound ->
  Sentinel.Update s ctx svc repo data w =
    ((None,
      Some (Sentinel.Errorf_status 404 Sentinel.ErrUnexpectedStatusCode)),
     w').
Proof.
  intros Hx Hstatus. unfold_call. rewrite Hx. now switch_on Hstatus.
Qed.

(** [Get] with an unexpected status wraps the sentinel with the status and
    leaves the body out. *)
Lemma Sentinel_Get_other_status s ctx svc repo w resp w' :
  resty.Get
    (HostURL (client s) +:+ "/api/repos/" +:+ svc +:+ "/" +:+ repo)
    (resty.SetResult Repository.zero
       (resty.SetContext ctx (resty.R (client_ (client s))))) w
    = ((resp, None), w') ->
  resty.StatusCode resp <> http.StatusOK ->
  resty.StatusCode resp <> http.StatusNotFound ->
  Sentinel.Get s ctx svc repo w =
    ((None,
      Some (Sentinel.Errorf_status (resty.StatusCode resp)
              Sentinel.ErrUnexpectedStatusCode)), w').
Proof.
  intros Hx Hok Hmissing. unfold_call. rewrite Hx.
  apply Z.eqb_neq in Hok, Hmissing. now rewrite Hok, Hmissing.
Qed.

(** The shape of what the three methods return is the same as in the
    later file. *)
Lemma Sentinel_outcome_shape s ctx svc repo data w :
  ResultOrError (Sentinel.Get s ctx svc repo w).1
  /\ ResultOrError (Sentinel.Add s ctx data w).1
  /\ ResultOrError (Sentinel.Update s ctx svc repo data w).1.
Proof.
  unfold ResultOrError. unfold_call. split; [|split].
  - destruct (resty.Get _ _ w) as [[resp [e|]] w']; simpl; [right; eauto|].
    repeat match goal with |- context [if ?b then _ else _] => destruct b end;
      simpl; eauto.
  - destruct (resty.Post _ _ w) as [[resp [e|]] w']; simpl; [right; eauto|].
    repeat match goal with |- context [if ?b then _ else _] => destruct b end;
      simpl; eauto.
  - destruct (resty.Put _ _ w) as [[resp [e|]] w']; simpl; [right; eauto|].
    repeat match goal with |- context [if ?b then _ else _] => destruct b end;
      simpl; eauto.
Qed.
End SentinelErrors.

(** ** The request body *)

Section RequestBody.
Context `{!Lexical}.

(** The keys of an encoded struct are the tags of the fields that were not
    left out, in declaration order. *)
Lemma encodeFields_keys {F T : Type} (tag : F -> string)
    (omitempty : F -> bool) (isEmpty : F -> T -> bool)
    (encode : F -> T -> option JSON) (fs : list F) (t : T)
    (members : list (string * JSON)) :
  encodeFields tag omitempty isEmpty encode fs t = Some members ->
  members.*1
  = tag <$> List.filter (fun f => negb (omitempty f && isEmpty f t)) fs.
Proof.
  revert members. induction fs as [|f fs IH]; intros members; simpl.
  - now intros [= <-].
  - destruct (omitempty f && isEmpty f t); simpl.
    + apply IH.
    + destruct (encode f t) as [v|]; [|discriminate].
      destruct (encodeFields tag omitempty isEmpty encode fs t) as [rest|];
        [|discriminate].
      intros [= <-]. simpl. f_equal. now apply IH.
Qed.

Lemma RepositoryConfig_tag_inj (f g : RepositoryConfig.field) :
  RepositoryConfig.tag f = RepositoryConfig.tag g -> f = g.
Proof. destruct f, g; simpl; intros Heq; congruence. Qed.

(** An [omitempty] field that holds its empty value leaves no key. *)
Lemma omitted_key (c : RepositoryConfig) (members : list (string * JSON))
    (f : RepositoryConfig.field) :
  marshalRepositoryConfig c = Some (JObject members) ->
  RepositoryConfig.omitempty f = true ->
  isEmptyValue f c = true ->
  RepositoryConfig.tag f ∉ members.*1.
Proof.
  unfold marshalRepositoryConfig. intros Hm Homit Hempty Hin.
  destruct (encodeFields _ _ _ _ _ c) as [ms|] eqn:Henc; [|discriminate].
  injection Hm as ->. rewrite (encodeFields_keys _ _ _ _ _ _ _ Henc) in Hin.
  apply list_elem_of_fmap in Hin as [g [Htag Hg]].
  apply RepositoryConfig_tag_inj in Htag. subst g.
  apply list_elem_of_In, filter_In in Hg as [_ Hkept].
  now rewrite Homit, Hempty in Hkept.
Qed.

(** C6. In the JSON object a [RepositoryConfig] is serialised to, an
    optional field that is nil has no key at all; a config with only
    [Service] and [Name] set is the object of just those two keys. *)
Theorem unset_optional_fields_omitted (c : RepositoryConfig)
    (members : list (string * JSON)) :
  marshalRepositoryConfig c = Some (JObject members) ->
  (RepositoryConfig.CommentOnPullRequests c = None ->
   "comment_on_pull_requests" ∉ members.*1)
  /\ (RepositoryConfig.SendBuildStatus c = None ->
      "send_build_status" ∉ members.*1)
  /\ (RepositoryConfig.CommitStatusFailThreshold c = None ->
      "commit_status_fail_threshold" ∉ members.*1)
  /\ (RepositoryConfig.CommitStatusFailChangeThreshold c = None ->
      "commit_status_fail_change_threshold" ∉ members.*1)
  /\ (RepositoryConfig.CommentOnPullRequests c = None ->
      RepositoryConfig.SendBuildStatus c = None ->
      RepositoryConfig.CommitStatusFailThreshold c = None ->
      RepositoryConfig.CommitStatusFailChangeThreshold c = None ->
      members
      = [("service", JString (coerceUTF8 (RepositoryConfig.Service c)));
         ("name", JString (coerceUTF8 (RepositoryConfig.Name c)))]).
Proof.
  intros Hm. repeat split.
  - intros Hnil.
    apply (omitted_key c members RepositoryConfig.fCommentOnPullRequests Hm);
      [reflexivity | simpl; now rewrite Hnil].
  - intros Hnil.
    apply (omitted_key c members RepositoryConfig.fSendBuildStatus Hm);
      [reflexivity | simpl; now rewrite Hnil].
  - intros Hnil.
    apply (omitted_key c members
             RepositoryConfig.fCommitStatusFailThreshold Hm);
      [reflexivity | simpl; now rewrite Hnil].
  - intros Hnil.
    apply (omitted_key c members
             RepositoryConfig.fCommitStatusFailChangeThreshold Hm);
      [reflexivity | simpl; now rewrite Hnil].
  - intros H1 H2 H3 H4. unfold marshalRepositoryConfig in Hm.
    simpl in Hm. rewrite H1, H2, H3, H4 in Hm. simpl in Hm. congruence.
Qed.

(** A config with only [Service] and [Name] set always serialises. *)
Lemma marshal_minimal (service name : string) :
  marshalRepositoryConfig
    {| RepositoryConfig.Service := service; RepositoryConfig.Name := name;
       RepositoryConfig.CommentOnPullRequests := None;
       RepositoryConfig.SendBuildStatus := None;
       RepositoryConfig.CommitStatusFailThreshold := None;
       RepositoryConfig.CommitStatusFailChangeThreshold := None |}
  = Some (JObject [("service", JString (coerceUTF8 service));
                   ("name", JString (coerceUTF8 name))]).
Proof. reflexivity. Qed.

End RequestBody.

Section Envelope.
Context `{!Lexical} `{!Wire}.
Implicit Types (s : service) (ctx : Context) (svc repo : string).
Implicit Types (data : option RepositoryConfig).
Implicit Types (w : httpmock.World Structured.error).

(** What the scripted transport records for a request that goes out,
    whatever it answers. *)
Lemma exchange_calls {T : Type} `{!Unmarshaler T} (req : resty.Request T)
    (url : string) (wire : option JSON) w :
  httpmock.calls (httpmock.exchange req url wire w).2
  = (httpmock.calls w ++ [httpmock.outgoing req url wire])%list.
Proof.
  unfold httpmock.exchange.
  destruct (httpmock.respond w _ _) as [e|status json body]; simpl;
    try reflexivity.
  destruct (json && httpmock.IsSuccess status && negb (status =? 204)%Z);
    simpl; [|reflexivity].
  destruct (ParseJSON body) as [j|]; simpl; [|reflexivity].
  now destruct (Unmarshal j (resty.ResultTarget req)).
Qed.

(** One call of the client records one request, or none when the URL does
    not parse or the body cannot be serialised. *)
Lemma transport_calls {T : Type} `{!Unmarshaler T} (req : resty.Request T) w :
  httpmock.calls (resty.Execute T _ req w).2
  = match ParseURL (resty.URL req) with
    | None => httpmock.calls w
    | Some url =>
        match resty.ReqBody req with
        | None => (httpmock.calls w ++ [httpmock.outgoing req url None])%list
        | Some body =>
            match marshalBody body with
            | Some j =>
                (httpmock.calls w ++ [httpmock.outgoing req url (Some j)])%list
            | None => httpmock.calls w
            end
        end
    end.
Proof.
  unfold resty.Execute, httpmock.transport.
  destruct (ParseURL (resty.URL req)) as [url|]; [|reflexivity].
  destruct (resty.ReqBody req) as [body|]; [|apply exchange_calls].
  destruct (marshalBody body) as [j|]; [apply exchange_calls | reflexivity].
Qed.

(** The world a call leaves behind, whatever value it returns. *)
Lemma Add_world s ctx data w :
  (Structured.Add s ctx data w).2
  = (resty.Post
       (HostURL (client s) +:+ "/api/repos")
       (resty.SetResult RepositoryConfig.zero
          (resty.SetBody
             ({[ "repo" := data ]} : gmap string (option RepositoryConfig))
             (resty.SetContext ctx (resty.R (client_ (client s)))))) w).2.
Proof.
  unfold_call. destruct (resty.Post _ _ w) as [[resp [e|]] w']; simpl;
    [reflexivity|].
  repeat match goal with |- context [if ?b then _ else _] => destruct b end;
    reflexivity.
Qed.

Lemma Update_world s ctx svc repo data w :
  (Structured.Update s ctx svc repo data w).2
  = (resty.Put
       (HostURL (client s) +:+ "/api/repos/" +:+ svc +:+ "/" +:+ repo)
       (resty.SetResult RepositoryConfig.zero
          (resty.SetBody
             ({[ "repo" := data ]} : gmap string (option RepositoryConfig))
             (resty.SetContext ctx (resty.R (client_ (client s)))))) w).2.
Proof.
  unfold_call. destruct (resty.Put _ _ w) as [[resp [e|]] w']; simpl;
    [reflexivity|].
  repeat match goal with |- context [if ?b then _ else _] => destruct b end;
    reflexivity.
Qed.




End Envelope.

(** ** Decoding an object into a struct *)

Section ObjectDecoding.
Context `{!Lexical} {F T : Type}.
Variables (tag : F -> string) (fields : list F).
Variables (store : F -> JSON -> T -> option T) (get : F -> T -> value).
Hypothesis tag_inj : forall f g : F, tag f = tag g -> f = g.
Hypothesis fields_all : forall f : F, In f fields.
Hypothesis get_store : forall f v t t',
  store f v t = Some t' -> storeValue v (get f t) = Some (get f t').
Hypothesis frame : forall f g v t t',
  store f v t = Some t' -> g <> f -> get g t' = get g t.

(** A key that selects no field is no field's tag. *)
Lemma findField_None (key : string) :
  findField tag fields key = None -> forall f, tag f <> key.
Proof.
  unfold findField. intros Hfind f Htag.
  destruct (find (fun f => String.eqb (tag f) key) fields) as [g|] eqn:Hexact;
    [discriminate|].
  pose proof (find_none _ _ Hexact f (fields_all f)) as Hne.
  simpl in Hne. apply String.eqb_neq in Hne. contradiction.
Qed.

(** A key written as the wire format spells it selects the field with
    that very tag. *)
Lemma findField_Some (key : string) (f : F) :
  existsb (fun f => String.eqb (tag f) key) fields
  || negb (existsb (fun f => EqualFold (tag f) key) fields) = true ->
  findField tag fields key = Some f -> tag f = key.
Proof.
  unfold findField. intros Hcanon Hfind.
  destruct (find (fun f => String.eqb (tag f) key) fields) as [g|] eqn:Hexact.
  - injection Hfind as ->. apply find_some in Hexact as [_ Heq].
    now apply String.eqb_eq in Heq.
  - apply find_some in Hfind as [Hin Hfold].
    apply orb_true_iff in Hcanon as [Hex | Hnofold].
    + apply existsb_exists in Hex as [g [Hg Heq]].
      pose proof (find_none _ _ Hexact g Hg) as Hne. simpl in Hne. congruence.
    + apply negb_true_iff in Hnofold.
      assert (existsb (fun f => EqualFold (tag f) key) fields = true) as Hyes
        by (apply existsb_exists; eauto).
      congruence.
Qed.

(** The member-by-member decoder against the field-by-field reading. *)
Lemma object_decoded (members : list (string * JSON)) :
  forall t t' : T,
    NoDup members.*1 ->
    forallb
      (fun key =>
         existsb (fun f => String.eqb (tag f) key) fields
         || negb (existsb (fun f => EqualFold (tag f) key) fields))
      members.*1 = true ->
    object tag fields store members t = Some t' ->
    forall f : F,
      match (list_to_map members : gmap string JSON) !! tag f with
      | Some v => storeValue v (get f t) = Some (get f t')
      | None => get f t' = get f t
      end.
Proof.
  induction members as [|[key v] rest IH]; intros t t' Hnodup Hkeys Hrun f.
  - simpl in Hrun. injection Hrun as <-.
    now rewrite list_to_map_nil, lookup_empty.
  - simpl in Hnodup, Hkeys, Hrun.
    apply NoDup_cons in Hnodup as [Hfresh Hnodup].
    apply andb_true_iff in Hkeys as [Hkey Hkeys].
    rewrite list_to_map_cons.
    destruct (findField tag fields key) as [g|] eqn:Hfind.
    + pose proof (findField_Some key g Hkey Hfind) as Htag.
      destruct (store g v t) as [t1|] eqn:Hstore; [|discriminate].
      specialize (IH t1 t' Hnodup Hkeys Hrun f).
      destruct (decide (tag f = key)) as [Heq | Hne].
      * assert (f = g) as -> by (apply tag_inj; congruence).
        rewrite Heq, lookup_insert_eq.
        rewrite Htag, (not_elem_of_list_to_map_1 rest key Hfresh) in IH.
        rewrite IH. eapply get_store, Hstore.
      * rewrite lookup_insert_ne by congruence.
        assert (f <> g) as Hfg by congruence.
        now rewrite (frame g f v t t1 Hstore Hfg) in IH.
    + rewrite lookup_insert_ne
        by (intros Heq; exact (findField_None key Hfind f (eq_sym Heq))).
      exact (IH t t' Hnodup Hkeys Hrun f).
Qed.

(** Decoding a canonical object into [zero] gives a record that holds
    what the object says. *)
Lemma unmarshalStruct_decoded (members : list (string * JSON)) (zero t : T) :
  canonical tag fields members = true ->
  unmarshalStruct tag fields store (JObject members) zero = Some t ->
  DecodedFrom tag get members zero t.
Proof.
  unfold canonical, DecodedFrom. simpl. intros Hcanon Hrun.
  apply andb_true_iff in Hcanon as [Hnodup Hkeys].
  apply bool_decide_eq_true in Hnodup.
  exact (object_decoded members zero t Hnodup Hkeys Hrun).
Qed.

(** A key that is absent leaves the field as [zero] has it. *)
Lemma decoded_absent (members : list (string * JSON)) (zero t : T) (f : F) :
  DecodedFrom tag get members zero t ->
  tag f ∉ members.*1 -> get f t = get f zero.
Proof.
  intros Hdec Habsent. specialize (Hdec f).
  now rewrite (not_elem_of_list_to_map_1 members (tag f) Habsent) in Hdec.
Qed.

(** A key that is present gives the field that member's value. *)
Lemma decoded_present (members : list (string * JSON)) (zero t : T) (f : F)
    (v : JSON) :
  DecodedFrom tag get members zero t ->
  NoDup members.*1 -> (tag f, v) ∈ members ->
  storeValue v (get f zero) = Some (get f t).
Proof.
  intros Hdec Hnodup Hin. specialize (Hdec f).
  now rewrite (elem_of_list_to_map_1 members (tag f) v Hnodup Hin) in Hdec.
Qed.


Hypothesis progress : forall f v t x,
  storeValue v (get f t) = Some x -> exists t', store f v t = Some t'.
Hypothesis stable : forall f v t t',
  is_Some (storeValue v (get f t)) -> is_Some (storeValue v (get f t')).
Hypothesis extensional : forall t t' : T,
  (forall f, get f t = get f t') -> t = t'.



End ObjectDecoding.

(** ** The two structs satisfy what the decoding lemmas ask for *)

Section StructFields.
Context `{!Lexical}.

Lemma Repository_tag_inj (f g : Repository.field) :
  Repository.tag f = Repository.tag g -> f = g.
Proof. destruct f, g; simpl; intros Heq; congruence. Qed.

Lemma Repository_fields_all (f : Repository.field) :
  In f Repository.fields.
Proof. destruct f; simpl; tauto. Qed.

Lemma RepositoryConfig_fields_all (f : RepositoryConfig.field) :
  In f RepositoryConfig.fields.
Proof. destruct f; simpl; tauto. Qed.

(** Splits the literal stores a goal or hypothesis runs through. *)
Ltac split_stores :=
  repeat match goal with
         | H : context [ParseInt ?lit] |- _ => destruct (ParseInt lit)
         | H : context [ParseFloat ?lit] |- _ => destruct (ParseFloat lit)
         end.

Lemma Repository_get_store f v r r' :
  storeRepository f v r = Some r' ->
  storeValue v (getRepository f r) = Some (getRepository f r').
Proof.
  destruct r, f, v; simpl; intros Hstore; split_stores;
    simpl in Hstore; try discriminate;
    injection Hstore as <-; reflexivity.
Qed.

Lemma Repository_frame f g v r r' :
  storeRepository f v r = Some r' -> g <> f ->
  getRepository g r' = getRepository g r.
Proof.
  intros Hstore Hfg.
  destruct r, f, v; simpl in Hstore; split_stores;
    simpl in Hstore; try discriminate;
    injection Hstore as <-; destruct g; try reflexivity; contradiction.
Qed.

Lemma RepositoryConfig_get_store f v c c' :
  storeRepositoryConfig f v c = Some c' ->
  storeValue v (getRepositoryConfig f c) = Some (getRepositoryConfig f c').
Proof.
  destruct c, f, v; simpl; intros Hstore; split_stores;
    simpl in Hstore; try discriminate;
    injection Hstore as <-; reflexivity.
Qed.

Lemma RepositoryConfig_frame f g v c c' :
  storeRepositoryConfig f v c = Some c' -> g <> f ->
  getRepositoryConfig g c' = getRepositoryConfig g c.
Proof.
  intros Hstore Hfg.
  destruct c, f, v; simpl in Hstore; split_stores;
    simpl in Hstore; try discriminate;
    injection Hstore as <-; destruct g; try reflexivity; contradiction.
Qed.









(** A decoded [Repository] holds what the object says; its optional
    fields without a key are nil. *)
Lemma Repository_decoded (members : list (string * JSON)) (r : Repository) :
  canonical Repository.tag Repository.fields members = true ->
  Unmarshal (JObject members) Repository.zero = Some r ->
  DecodedFrom Repository.tag getRepository members Repository.zero r
  /\ OmittedNilRepository members r.
Proof.
  intros Hcanon Hrun.
  assert (DecodedFrom Repository.tag getRepository members Repository.zero r)
    as Hdec.
  { eapply unmarshalStruct_decoded;
      eauto using Repository_tag_inj, Repository_fields_all,
                  Repository_get_store, Repository_frame. }
  split; [exact Hdec|].
  repeat split; intros Habsent.
  - pose proof (decoded_absent _ _ _ _ _ Repository.fCommentOnPullRequests
                  Hdec Habsent) as Hnil. simpl in Hnil. congruence.
  - pose proof (decoded_absent _ _ _ _ _ Repository.fSendBuildStatus
                  Hdec Habsent) as Hnil. simpl in Hnil. congruence.
  - pose proof (decoded_absent _ _ _ _ _ Repository.fCommitStatusFailThreshold
                  Hdec Habsent) as Hnil. simpl in Hnil. congruence.
  - pose proof (decoded_absent _ _ _ _ _
                  Repository.fCommitStatusFailChangeThreshold
                  Hdec Habsent) as Hnil. simpl in Hnil. congruence.
Qed.

Lemma RepositoryConfig_decoded (members : list (string * JSON))
    (c : RepositoryConfig) :
  canonical RepositoryConfig.tag RepositoryConfig.fields members = true ->
  Unmarshal (JObject members) RepositoryConfig.zero = Some c ->
  DecodedFrom RepositoryConfig.tag getRepositoryConfig members
    RepositoryConfig.zero c
  /\ OmittedNilConfig members c.
Proof.
  intros Hcanon Hrun.
  assert (DecodedFrom RepositoryConfig.tag getRepositoryConfig members
            RepositoryConfig.zero c) as Hdec.
  { eapply unmarshalStruct_decoded;
      eauto using RepositoryConfig_tag_inj, RepositoryConfig_fields_all,
                  RepositoryConfig_get_store, RepositoryConfig_frame. }
  split; [exact Hdec|].
  repeat split; intros Habsent.
  - pose proof (decoded_absent _ _ _ _ _
                  RepositoryConfig.fCommentOnPullRequests
                  Hdec Habsent) as Hnil. simpl in Hnil. congruence.
  - pose proof (decoded_absent _ _ _ _ _ RepositoryConfig.fSendBuildStatus
                  Hdec Habsent) as Hnil. simpl in Hnil. congruence.
  - pose proof (decoded_absent _ _ _ _ _
                  RepositoryConfig.fCommitStatusFailThreshold
                  Hdec Habsent) as Hnil. simpl in Hnil. congruence.
  - pose proof (decoded_absent _ _ _ _ _
                  RepositoryConfig.fCommitStatusFailChangeThreshold
                  Hdec Habsent) as Hnil. simpl in Hnil. congruence.
Qed.
End StructFields.

(** ** Decoded results *)

Section DecodeFidelity.
Context {World : Type} `{!Lexical} `{!resty.Transport Structured.error World}.
Implicit Types (s : service) (ctx : Context) (svc repo : string).
Implicit Types (data : option RepositoryConfig) (w : World).
Implicit Types (members : list (string * JSON)).

(** On its success status each method returns the value behind the result
    pointer as the client left it. *)
Lemma Get_200 s ctx svc repo w resp w' :
  resty.Get
    (HostURL (client s) +:+ "/api/repos/" +:+ svc +:+ "/" +:+ repo)
    (resty.SetResult Repository.zero
       (resty.SetContext ctx (resty.R (client_ (client s))))) w
    = ((resp, None), w') ->
  resty.StatusCode resp = http.StatusOK ->
  Structured.Get s ctx svc repo w = ((Some (resty.Result resp), None), w').
Proof.
  intros Hx Hstatus. unfold_call. rewrite Hx. now switch_on Hstatus.
Qed.

Lemma Add_201 s ctx data w resp w' :
  resty.Post
    (HostURL (client s) +:+ "/api/repos")
    (resty.SetResult RepositoryConfig.zero
       (resty.SetBody
          ({[ "repo" := data ]} : gmap string (option RepositoryConfig))
          (resty.SetContext ctx (resty.R (client_ (client s)))))) w
    = ((resp, None), w') ->
  resty.StatusCode resp = http.StatusCreated ->
  Structured.Add s ctx data w = ((Some (resty.Result resp), None), w').
Proof.
  intros Hx Hstatus. unfold_call. rewrite Hx. now switch_on Hstatus.
Qed.

Lemma Update_200 s ctx svc repo data w resp w' :
  resty.Put
    (HostURL (client s) +:+ "/api/repos/" +:+ svc +:+ "/" +:+ repo)
    (resty.SetResult RepositoryConfig.zero
       (resty.SetBody
          ({[ "repo" := data ]} : gmap string (option RepositoryConfig))
          (resty.SetContext ctx (resty.R (client_ (client s)))))) w
    = ((resp, None), w') ->
  resty.StatusCode resp = http.StatusOK ->
  Structured.Update s ctx svc repo data w
  = ((Some (resty.Result resp), None), w').
Proof.
  intros Hx Hstatus. unfold_call. rewrite Hx. now switch_on Hstatus.
Qed.

End DecodeFidelity.

Section DecodedResults.
Context `{!Lexical} `{!Wire}.
Implicit Types (s : service) (ctx : Context) (svc repo : string).
Implicit Types (data : option RepositoryConfig).
Implicit Types (w : httpmock.World Structured.error).
Implicit Types (members : list (string * JSON)) (body url : string).


End DecodedResults.

(** *** Worked examples on scripted answers *)

Section FidelityExamples.
#[local] Existing Instance Fixture.lexical.
#[local] Existing Instance Fixture.wire.



(** A key in another case selects the field all the same: the object has
    no key "send_build_status", and the field is set. *)
Example case_variant_key_decodes :
  ("send_build_status" ∉ Fixture.shoutedBody.*1)
  /\ (Structured.Get Fixture.svc Fixture.ctx "github" "org/repo"
        (Fixture.answeringJSON 200 (JObject Fixture.shoutedBody))).1.1
     = Some {| Repository.ID := 0;
               Repository.Name := "org/repo";
               Repository.Service := "";
               Repository.CommentOnPullRequests := None;
               Repository.SendBuildStatus := Some true;
               Repository.CommitStatusFailThreshold := None;
               Repository.CommitStatusFailChangeThreshold := None;
               Repository.HasBadge := false;
               Repository.Token := "";
               Repository.CreatedAt := "";
               Repository.UpdatedAt := "" |}.
Proof.
  split; [|reflexivity].
  unfold Fixture.shoutedBody. simpl.
  repeat (apply not_elem_of_cons; split; [discriminate|]).
  apply not_elem_of_nil.
Qed.
End FidelityExamples.

Section MoreExamples.
#[local] Existing Instance Fixture.lexical.
#[local] Existing Instance Fixture.wire.

Example ex_Error_unprocessable (body : string) :
  Structured.Error (Structured.ErrUnprocessableEntity body)
  = "unprocessable entity (status code 422). Error body: '" +:+ body +:+ "'".
Proof. reflexivity. Qed.

Example ex_Error_unexpected :
  Structured.Error (Structured.ErrUnexpectedStatusCode 500 "server error")
  = "super unexpected status code 500. Error body: 'server error'".
Proof. reflexivity. Qed.

Example ex_Get_404 :
  (Structured.Get Fixture.svc Fixture.ctx "github" "org/missing"
     (Fixture.answering 404 "Not Found")).1
  = (None, Some Structured.ErrRepoNotFound).
Proof. reflexivity. Qed.

Example ex_Add_201 :
  (Structured.Add Fixture.svc Fixture.ctx (Some Fixture.minimal)
     (Fixture.answeringJSON 201 (JObject Fixture.configBody))).1
  = (Some {| RepositoryConfig.Service := "github";
             RepositoryConfig.Name := "org/repo";
             RepositoryConfig.CommentOnPullRequests := None;
             RepositoryConfig.SendBuildStatus := None;
             RepositoryConfig.CommitStatusFailThreshold := Some 80.5%float;
             RepositoryConfig.CommitStatusFailChangeThreshold := None |},
     None).
Proof. reflexivity. Qed.

Example ex_Add_200_unexpected :
  (Structured.Add Fixture.svc Fixture.ctx (Some Fixture.minimal)
     (Fixture.answering 200 "ok")).1
  = (None, Some (Structured.ErrUnexpectedStatusCode 200 "ok")).
Proof. reflexivity. Qed.

Example ex_Sentinel_Add_taken :
  (Sentinel.Add Fixture.svc Fixture.ctx (Some Fixture.full)
     (Fixture.answeringSentinel 422 "Name has already been taken")).1
  = (None, Some Sentinel.ErrUnprocessableEntity).
Proof. reflexivity. Qed.

Example ex_Sentinel_Update_missing :
  (Sentinel.Update Fixture.svc Fixture.ctx "github" "org/missing"
     (Some Fixture.full) (Fixture.answeringSentinel 404 "Not Found")).1
  = (None,
     Some (Sentinel.wrapError
             "status code 404: unexpected status code on response"
             Sentinel.ErrUnexpectedStatusCode)).
Proof. reflexivity. Qed.

Example ex_Sentinel_Get_500 :
  (Sentinel.Get Fixture.svc Fixture.ctx "github" "org/repo"
     (Fixture.answeringSentinel 500 "server error")).1
  = (None,
     Some (Sentinel.wrapError
             "status code 500: unexpected status code on response"
             Sentinel.ErrUnexpectedStatusCode)).
Proof. reflexivity. Qed.

Example ex_minimal_body_sent :
  httpmock.calls
    (Structured.Add Fixture.svc Fixture.ctx (Some Fixture.minimal)
       (Fixture.answering 201 "")).2
  = [{| httpmock.SentVerb := resty.MethodPost;
        httpmock.SentURL := "https://coveralls.io/api/repos";
        httpmock.SentHeader :=
          {[ "Accept" := "application/json";
             "Authorization" := "token s3cr3t" ]};
        httpmock.SentCtx := Some Fixture.ctx;
        httpmock.SentJSON :=
          Some (JObject
                  [("repo",
                    JObject [("service", JString "github");
                             ("name", JString "org/repo")])]) |}].
Proof. vm_compute. reflexivity. Qed.

Example ex_nil_config_sent :
  httpmock.SentJSON
  <$> httpmock.calls
        (Structured.Add Fixture.svc Fixture.ctx None
           (Fixture.answering 201 "")).2
  = [Some (JObject [("repo", JNull)])].
Proof. reflexivity. Qed.

Example ex_nan_not_sent :
  let config :=
    {| RepositoryConfig.Service := "github";
       RepositoryConfig.Name := "org/repo";
       RepositoryConfig.CommentOnPullRequests := None;
       RepositoryConfig.SendBuildStatus := None;
       RepositoryConfig.CommitStatusFailThreshold := Some PrimFloat.nan;
       RepositoryConfig.CommitStatusFailChangeThreshold := None |} in
  Structured.Add Fixture.svc Fixture.ctx (Some config)
    (Fixture.answering 201 "")
  = ((None, Some (Structured.ClientError "json")),
     Fixture.answering 201 "").
Proof. reflexivity. Qed.

Example ex_coerce_invalid_byte :
  coerceUTF8 (String (ascii_of_N 255) "") = replacementChar
  /\ ValidString (String (ascii_of_N 255) "") = false.
Proof. split; reflexivity. Qed.

Example ex_coerce_keeps_valid :
  let e_acute := String (ascii_of_N 195) (String (ascii_of_N 169) "") in
  coerceUTF8 ("caf" +:+ e_acute) = "caf" +:+ e_acute
  /\ coerceUTF8 replacementChar = replacementChar.
Proof. split; reflexivity. Qed.

Example ex_coerce_surrogate :
  coerceUTF8
    (String (ascii_of_N 237) (String (ascii_of_N 160)
       (String (ascii_of_N 128) "")))
  = replacementChar +:+ replacementChar +:+ replacementChar.
Proof. reflexivity. Qed.

Example ex_invalid_name_on_the_wire :
  marshalRepositoryConfig
    {| RepositoryConfig.Service := "github";
       RepositoryConfig.Name := String (ascii_of_N 255) "";
       RepositoryConfig.CommentOnPullRequests := None;
       RepositoryConfig.SendBuildStatus := None;
       RepositoryConfig.CommitStatusFailThreshold := None;
       RepositoryConfig.CommitStatusFailChangeThreshold := None |}
  = Some (JObject [("service", JString "github");
                   ("name", JString replacementChar)]).
Proof. reflexivity. Qed.

Example ex_unparsable_url_not_sent :
  Structured.Get Fixture.svc Fixture.ctx "github" "%zz"
    (Fixture.answering 200 "ok")
  = ((None, Some (Structured.ClientError "json")), Fixture.answering 200 "ok").
Proof. reflexivity. Qed.

Example ex_no_content_not_decoded :
  (Structured.Update Fixture.svc Fixture.ctx "github" "org/repo"
     (Some Fixture.minimal)
     (Fixture.answeringJSON 204 (JObject Fixture.configBody))).1
  = (None,
     Some (Structured.ErrUnexpectedStatusCode 204
             (Fixture.render (JObject Fixture.configBody)))).
Proof. reflexivity. Qed.

Lemma unset_optional_fields_omitted_witness :
  ("comment_on_pull_requests"
     ∉ [("service", JString "github"); ("name", JString "org/repo")].*1)
  /\ marshalRepositoryConfig Fixture.minimal
     = Some (JObject [("service", JString "github");
                      ("name", JString "org/repo")]).
Proof.
  split.
  - apply (unset_optional_fields_omitted Fixture.minimal
             [("service", JString "github"); ("name", JString "org/repo")]);
      reflexivity.
  - reflexivity.
Defined.
End MoreExamples.

(** * The rest of the three methods *)

(** ** [src/unnamed/part_000]: every arm of the three switches *)

Section StructuredArms.
Context {World : Type} `{!Lexical} `{!resty.Transport Structured.error World}.
Implicit Types (s : service) (ctx : Context) (svc repo : string).
Implicit Types (data : option RepositoryConfig) (w : World).

Local Abbreviation GetExchange s ctx svc repo :=
  (resty.Get
     (HostURL (client s) +:+ "/api/repos/" +:+ svc +:+ "/" +:+ repo)
     (resty.SetResult Repository.zero
        (resty.SetContext ctx (resty.R (client_ (client s)))))).

Local Abbreviation AddExchange s ctx data :=
  (resty.Post
     (HostURL (client s) +:+ "/api/repos")
     (resty.SetResult RepositoryConfig.zero
        (resty.SetBody
           ({[ "repo" := data ]} : gmap string (option RepositoryConfig))
           (resty.SetContext ctx (resty.R (client_ (client s))))))).

Local Abbreviation UpdateExchange s ctx svc repo data :=
  (resty.Put
     (HostURL (client s) +:+ "/api/repos/" +:+ svc +:+ "/" +:+ repo)
     (resty.SetResult RepositoryConfig.zero
        (resty.SetBody
           ({[ "repo" := data ]} : gmap string (option RepositoryConfig))
           (resty.SetContext ctx (resty.R (client_ (client s))))))).

(** X1. [Get]: when the response has status 404, the call returns no
    result and the error [ErrRepoNotFound]. *)
Theorem Get_404_repo_not_found s ctx svc repo w resp w' :
  GetExchange s ctx svc repo w = ((resp, None), w') ->
  resty.StatusCode resp = http.StatusNotFound ->
  Structured.Get s ctx svc repo w
  = ((None, Some Structured.ErrRepoNotFound), w').
Proof.
  intros Hx Hstatus. unfold_call. rewrite Hx. now switch_on Hstatus.
Qed.

(** X2. [Get] returns a result exactly when the client reports no error
    and the status is 200; the result is then the value behind the result
    pointer, the error is nil, and nothing else has happened to the
    world. *)
Theorem Get_succeeds_iff s ctx svc repo w :
  let '((resp, err), w') := GetExchange s ctx svc repo w in
  (is_Some (Structured.Get s ctx svc repo w).1.1
   <-> err = None /\ resty.StatusCode resp = http.StatusOK)
  /\ (is_Some (Structured.Get s ctx svc repo w).1.1 ->
      Structured.Get s ctx svc repo w
      = ((Some (resty.Result resp), None), w')).
Proof.
  unfold_call. destruct (GetExchange s ctx svc repo w) as [[resp [e|]] w'].
  - simpl. split; [split|]; [intros Hs | intros [Hn _] | intros Hs];
      try discriminate; now apply is_Some_None in Hs.
  - unfold http.StatusOK, http.StatusNotFound.
    destruct (Z.eqb_spec (resty.StatusCode resp) 200) as [Hok | Hno]; simpl.
    + split; [split|]; eauto.
    + destruct (resty.StatusCode resp =? 404)%Z; simpl;
        (split; [split|]; [intros Hs | intros [_ Hs] | intros Hs];
         try contradiction; now apply is_Some_None in Hs).
Qed.

(** X3. [Add] returns a result exactly when the client reports no error
    and the status is 201 (200 does not count as success). *)
Theorem Add_succeeds_iff s ctx data w :
  let '((resp, err), w') := AddExchange s ctx data w in
  (is_Some (Structured.Add s ctx data w).1.1
   <-> err = None /\ resty.StatusCode resp = http.StatusCreated)
  /\ (is_Some (Structured.Add s ctx data w).1.1 ->
      Structured.Add s ctx data w = ((Some (resty.Result resp), None), w')).
Proof.
  unfold_call. destruct (AddExchange s ctx data w) as [[resp [e|]] w'].
  - simpl. split; [split|]; [intros Hs | intros [Hn _] | intros Hs];
      try discriminate; now apply is_Some_None in Hs.
  - unfold http.StatusCreated, http.StatusUnprocessableEntity.
    destruct (Z.eqb_spec (resty.StatusCode resp) 201) as [Hok | Hno]; simpl.
    + split; [split|]; eauto.
    + destruct (resty.StatusCode resp =? 422)%Z; simpl;
        [destruct (Contains _ _); simpl|];
        (split; [split|]; [intros Hs | intros [_ Hs] | intros Hs];
         try contradiction; now apply is_Some_None in Hs).
Qed.

(** X4. [Update] returns a result exactly when the client reports no
    error and the status is 200. *)
Theorem Update_succeeds_iff s ctx svc repo data w :
  let '((resp, err), w') := UpdateExchange s ctx svc repo data w in
  (is_Some (Structured.Update s ctx svc repo data w).1.1
   <-> err = None /\ resty.StatusCode resp = http.StatusOK)
  /\ (is_Some (Structured.Update s ctx svc repo data w).1.1 ->
      Structured.Update s ctx svc repo data w
      = ((Some (resty.Result resp), None), w')).
Proof.
  unfold_call.
  destruct (UpdateExchange s ctx svc repo data w) as [[resp [e|]] w'].
  - simpl. split; [split|]; [intros Hs | intros [Hn _] | intros Hs];
      try discriminate; now apply is_Some_None in Hs.
  - unfold http.StatusOK, http.StatusNotFound,
      http.StatusUnprocessableEntity.
    destruct (Z.eqb_spec (resty.StatusCode resp) 200) as [Hok | Hno]; simpl.
    + split; [split|]; eauto.
    + destruct (resty.StatusCode resp =? 404)%Z; simpl;
        [|destruct (resty.StatusCode resp =? 422)%Z; simpl];
        (split; [split|]; [intros Hs | intros [_ Hs] | intros Hs];
         try contradiction; now apply is_Some_None in Hs).
Qed.

(** X5. [Add]: a status that is neither 201 nor 422 (200 and 404 too)
    gives no result and an [ErrUnexpectedStatusCode] with that status and
    the body. *)
Theorem Add_other_status s ctx data w resp w' :
  AddExchange s ctx data w = ((resp, None), w') ->
  resty.StatusCode resp <> http.StatusCreated ->
  resty.StatusCode resp <> http.StatusUnprocessableEntity ->
  Structured.Add s ctx data w =
    ((None,
      Some (Structured.ErrUnexpectedStatusCode (resty.StatusCode resp)
              (resty.Body resp))), w').
Proof.
  intros Hx Hcreated Hunprocessable. unfold_call. rewrite Hx.
  apply Z.eqb_neq in Hcreated, Hunprocessable.
  now rewrite Hcreated, Hunprocessable.
Qed.

(** X6. [Update]: a status that is none of 200, 404 and 422 gives no
    result and an [ErrUnexpectedStatusCode] with that status and the
    body. *)
Theorem Update_other_status s ctx svc repo data w resp w' :
  UpdateExchange s ctx svc repo data w = ((resp, None), w') ->
  resty.StatusCode resp <> http.StatusOK ->
  resty.StatusCode resp <> http.StatusNotFound ->
  resty.StatusCode resp <> http.StatusUnprocessableEntity ->
  Structured.Update s ctx svc repo data w =
    ((None,
      Some (Structured.ErrUnexpectedStatusCode (resty.StatusCode resp)
              (resty.Body resp))), w').
Proof.
  intros Hx Hok Hmissing Hunprocessable. unfold_call. rewrite Hx.
  apply Z.eqb_neq in Hok, Hmissing, Hunprocessable.
  now rewrite Hok, Hmissing, Hunprocessable.
Qed.

(** X7. When the client itself reports an error, each of the three
    methods hands that very error on, with no result, whatever status or
    body came with it. *)
Theorem client_error_propagated s ctx svc repo data w e :
  ((GetExchange s ctx svc repo w).1.2 = Some e ->
   (Structured.Get s ctx svc repo w).1 = (None, Some e))
  /\ ((AddExchange s ctx data w).1.2 = Some e ->
      (Structured.Add s ctx data w).1 = (None, Some e))
  /\ ((UpdateExchange s ctx svc repo data w).1.2 = Some e ->
      (Structured.Update s ctx svc repo data w).1 = (None, Some e)).
Proof.
  split; [|split]; intros Herr.
  - destruct (GetExchange s ctx svc repo w) as [[resp err] w'] eqn:Hx.
    simpl in Herr. subst err.
    now rewrite (Get_client_error _ _ _ _ _ _ _ _ Hx).
  - destruct (AddExchange s ctx data w) as [[resp err] w'] eqn:Hx.
    simpl in Herr. subst err.
    now rewrite (Add_client_error _ _ _ _ _ _ _ Hx).
  - destruct (UpdateExchange s ctx svc repo data w) as [[resp err] w'] eqn:Hx.
    simpl in Herr. subst err.
    now rewrite (Update_client_error _ _ _ _ _ _ _ _ _ Hx).
Qed.

(** X8. The errors each method can return once the client has reported
    none, as the comments of the methods list them: [Get] only
    [ErrRepoNotFound] and [ErrUnexpectedStatusCode]; [Add] only
    [ErrNameIsTaken], [ErrUnprocessableEntity] and
    [ErrUnexpectedStatusCode] (never [ErrRepoNotFound]); [Update] only
    [ErrRepoNotFound], [ErrUnprocessableEntity] and
    [ErrUnexpectedStatusCode] (never [ErrNameIsTaken]).  The fields are
    the status and the body of the response. *)
Theorem documented_errors s ctx svc repo data w :
  (let '((resp, err), _) := GetExchange s ctx svc repo w in
   err = None ->
   let e := (Structured.Get s ctx svc repo w).1.2 in
   e = None \/ e = Some Structured.ErrRepoNotFound
   \/ e = Some (Structured.ErrUnexpectedStatusCode (resty.StatusCode resp)
                  (resty.Body resp)))
  /\ (let '((resp, err), _) := AddExchange s ctx data w in
      err = None ->
      let e := (Structured.Add s ctx data w).1.2 in
      e = None \/ e = Some Structured.ErrNameIsTaken
      \/ e = Some (Structured.ErrUnprocessableEntity (resty.Body resp))
      \/ e = Some (Structured.ErrUnexpectedStatusCode (resty.StatusCode resp)
                     (resty.Body resp)))
  /\ (let '((resp, err), _) := UpdateExchange s ctx svc repo data w in
      err = None ->
      let e := (Structured.Update s ctx svc repo data w).1.2 in
      e = None \/ e = Some Structured.ErrRepoNotFound
      \/ e = Some (Structured.ErrUnprocessableEntity (resty.Body resp))
      \/ e = Some (Structured.ErrUnexpectedStatusCode (resty.StatusCode resp)
                     (resty.Body resp))).
Proof.
  unfold_call. split; [|split].
  - destruct (GetExchange s ctx svc repo w) as [[resp err] w'].
    intros ->. simpl.
    repeat match goal with |- context [if ?b then _ else _] => destruct b end;
      simpl; tauto.
  - destruct (AddExchange s ctx data w) as [[resp err] w'].
    intros ->. simpl.
    repeat match goal with |- context [if ?b then _ else _] => destruct b end;
      simpl; tauto.
  - destruct (UpdateExchange s ctx svc repo data w) as [[resp err] w'].
    intros ->. simpl.
    repeat match goal with |- context [if ?b then _ else _] => destruct b end;
      simpl; tauto.
Qed.
End StructuredArms.

(** ** What goes out *)

Section Requests.
Context `{!Lexical} `{!Wire}.
Implicit Types (s : service) (ctx : Context) (svc repo : string).
Implicit Types (data : option RepositoryConfig).
Implicit Types (w : httpmock.World Structured.error).

Lemma Get_world s ctx svc repo w :
  (Structured.Get s ctx svc repo w).2
  = (resty.Get
       (HostURL (client s) +:+ "/api/repos/" +:+ svc +:+ "/" +:+ repo)
       (resty.SetResult Repository.zero
          (resty.SetContext ctx (resty.R (client_ (client s))))) w).2.
Proof.
  unfold_call. destruct (resty.Get _ _ w) as [[resp [e|]] w']; simpl;
    [reflexivity|].
  repeat match goal with |- context [if ?b then _ else _] => destruct b end;
    reflexivity.
Qed.

(** X9. [Get] sends at most one request and never a second one.  When
    the URL it builds parses, it sends exactly one, whatever the answer
    (an answer has no Location to follow): a GET to that URL, without a
    body, with the caller's context.  When the URL does not parse,
    nothing is sent and the call returns the client's error and no
    result. *)
Theorem Get_request_sent s ctx svc repo w :
  match ParseURL
          (HostURL (client s) +:+ "/api/repos/" +:+ svc +:+ "/" +:+ repo)
  with
  | Some url =>
      exists sent : httpmock.Sent,
        httpmock.calls (Structured.Get s ctx svc repo w).2
        = (httpmock.calls w ++ [sent])%list
        /\ httpmock.SentVerb sent = resty.MethodGet
        /\ httpmock.SentURL sent = url
        /\ httpmock.SentJSON sent = None
        /\ httpmock.SentCtx sent = Some ctx
  | None =>
      Structured.Get s ctx svc repo w
      = ((None, Some (httpmock.urlError w)), w)
  end.
Proof.
  destruct (ParseURL _) as [url|] eqn:Hurl.
  - eexists. rewrite Get_world. unfold resty.Get.
    rewrite transport_calls. simpl. rewrite Hurl.
    split; [reflexivity|]. now repeat split.
  - unfold_call. unfold resty.Get, resty.Execute, httpmock.transport.
    simpl. now rewrite Hurl.
Qed.

Lemma NewClient_header (t : string) :
  resty.Header (client_ (NewClient t)) !! "Authorization"
  = Some ("token " +:+ t)
  /\ resty.Header (client_ (NewClient t)) !! "Accept"
     = Some "application/json".
Proof.
  unfold NewClient, resty.SetHeader, resty.New. simpl. split.
  - apply lookup_insert_eq.
  - rewrite lookup_insert_ne by discriminate. apply lookup_insert_eq.
Qed.

(** X10. Every request that [Get], [Add] and [Update] send through the
    service of [NewClient t] goes to the URL that a string starting with
    the default host and [/api/repos] parses to, carries the headers
    [Accept: application/json] and [Authorization: token t], and carries
    the caller's context. *)
Theorem NewClient_requests (t : string) ctx svc repo data w :
  let s := Repositories (NewClient t) in
  let sent (w' : httpmock.World Structured.error) :=
    drop (length (httpmock.calls w)) (httpmock.calls w') in
  Forall (Authorised t ctx) (sent (Structured.Get s ctx svc repo w).2)
  /\ Forall (Authorised t ctx) (sent (Structured.Add s ctx data w).2)
  /\ Forall (Authorised t ctx)
       (sent (Structured.Update s ctx svc repo data w).2).
Proof.
  cbv zeta. destruct (NewClient_header t) as [Hauth Haccept].
  rewrite Get_world, Add_world, Update_world.
  unfold resty.Get, resty.Post, resty.Put. rewrite !transport_calls. simpl.
  assert (forall raw url verb wire,
            HasPrefix raw "https://coveralls.io/api/repos" = true ->
            ParseURL raw = Some url ->
            Authorised t ctx
              {| httpmock.SentVerb := verb; httpmock.SentURL := url;
                 httpmock.SentHeader := resty.Header (client_ (NewClient t));
                 httpmock.SentCtx := Some ctx; httpmock.SentJSON := wire |})
    as Hsent.
  { intros raw url verb wire Hprefix Hurl. repeat split; eauto. }
  repeat split.
  - destruct (ParseURL _) as [url|] eqn:Hurl.
    + rewrite drop_app_length. apply Forall_singleton.
      eapply Hsent; [|exact Hurl]; reflexivity.
    + rewrite drop_all. constructor.
  - destruct (ParseURL _) as [url|] eqn:Hurl;
      [|rewrite drop_all; constructor].
    destruct (marshalBody _) as [j|];
      [|rewrite drop_all; constructor].
    rewrite drop_app_length. apply Forall_singleton.
    eapply Hsent; [|exact Hurl]; reflexivity.
  - destruct (ParseURL _) as [url|] eqn:Hurl;
      [|rewrite drop_all; constructor].
    destruct (marshalBody _) as [j|];
      [|rewrite drop_all; constructor].
    rewrite drop_app_length. apply Forall_singleton.
    eapply Hsent; [|exact Hurl]; reflexivity.
Qed.
End Requests.

(** ** Messages *)

(** X11. The message of an [ErrUnprocessableEntity] holds the whole body
    it was made from; the message of an [ErrUnexpectedStatusCode] holds
    the body and the status in decimal. *)
Theorem Error_includes_body (c : Z) (body : string) :
  Substring body
    (Structured.Error (Structured.newErrUnprocessableEntity body))
  /\ Substring body
       (Structured.Error (Structured.newErrUnexpectedStatusCode c body))
  /\ Substring (pretty c)
       (Structured.Error (Structured.newErrUnexpectedStatusCode c body)).
Proof.
  repeat split.
  - exists "unprocessable entity (status code 422). Error body: '", "'".
    reflexivity.
  - exists ("super unexpected status code " +:+ pretty c
            +:+ ". Error body: '"), "'".
    simpl. now rewrite !append_assoc.
  - exists "super unexpected status code ",
      (". Error body: '" +:+ body +:+ "'").
    reflexivity.
Qed.

(** ** [src/repositories.go]: every arm of the three switches *)

Section SentinelArms.
Context {World : Type} `{!Lexical} `{!resty.Transport Sentinel.error World}.
Implicit Types (s : service) (ctx : Context) (svc repo : string).
Implicit Types (data : option RepositoryConfig) (w : World).

Local Abbreviation GetExchange s ctx svc repo :=
  (resty.Get
     (HostURL (client s) +:+ "/api/repos/" +:+ svc +:+ "/" +:+ repo)
     (resty.SetResult Repository.zero
        (resty.SetContext ctx (resty.R (client_ (client s)))))).

Local Abbreviation AddExchange s ctx data :=
  (resty.Post
     (HostURL (client s) +:+ "/api/repos")
     (resty.SetResult RepositoryConfig.zero
        (resty.SetBody
           ({[ "repo" := data ]} : gmap string (option RepositoryConfig))
           (resty.SetContext ctx (resty.R (client_ (client s))))))).

Local Abbreviation UpdateExchange s ctx svc repo data :=
  (resty.Put
     (HostURL (client s) +:+ "/api/repos/" +:+ svc +:+ "/" +:+ repo)
     (resty.SetResult RepositoryConfig.zero
        (resty.SetBody
           ({[ "repo" := data ]} : gmap string (option RepositoryConfig))
           (resty.SetContext ctx (resty.R (client_ (client s))))))).

(** X12. In this file [Get], on a status that is neither 200 nor 404,
    returns no result and an error that is not the sentinel
    [ErrUnexpectedStatusCode] itself but wraps it ([errors.Is] finds it);
    the message names the status and nothing of the body. *)
Theorem Sentinel_Get_wrapped_status s ctx svc repo w resp w' :
  GetExchange s ctx svc repo w = ((resp, None), w') ->
  resty.StatusCode resp <> http.StatusOK ->
  resty.StatusCode resp <> http.StatusNotFound ->
  exists e : Sentinel.error,
    Sentinel.Get s ctx svc repo w = ((None, Some e), w')
    /\ e <> Sentinel.ErrUnexpectedStatusCode
    /\ Sentinel.Is e Sentinel.ErrUnexpectedStatusCode = true
    /\ Sentinel.Error e
       = "status code " +:+ pretty (resty.StatusCode resp)
         +:+ ": unexpected status code on response".
Proof.
  intros Hx Hok Hmissing.
  exists (Sentinel.Errorf_status (resty.StatusCode resp)
            Sentinel.ErrUnexpectedStatusCode).
  split; [exact (Sentinel_Get_other_status _ _ _ _ _ _ _ Hx Hok Hmissing)|].
  split; [discriminate|]. split; reflexivity.
Qed.

(** X13. In this file [Add], on status 422, returns no result and the
    bare sentinel [ErrUnprocessableEntity], whatever the body says, and
    on a status that is neither 201 nor 422 the wrapped
    [ErrUnexpectedStatusCode]. *)
Theorem Sentinel_Add_failures s ctx data w resp w' :
  AddExchange s ctx data w = ((resp, None), w') ->
  resty.StatusCode resp <> http.StatusCreated ->
  Sentinel.Add s ctx data w
  = ((None,
      Some (if decide (resty.StatusCode resp
                       = http.StatusUnprocessableEntity)
            then Sentinel.ErrUnprocessableEntity
            else Sentinel.Errorf_status (resty.StatusCode resp)
                   Sentinel.ErrUnexpectedStatusCode)), w').
Proof.
  intros Hx Hcreated. unfold_call. rewrite Hx.
  apply Z.eqb_neq in Hcreated. rewrite Hcreated.
  destruct (decide (resty.StatusCode resp = http.StatusUnprocessableEntity))
    as [Heq | Hne].
  - apply Z.eqb_eq in Heq. now rewrite Heq.
  - apply Z.eqb_neq in Hne. now rewrite Hne.
Qed.

(** X14. In this file [Update] has no arm for 404: every status other
    than 200 and 422, 404 among them, gives the wrapped
    [ErrUnexpectedStatusCode], and never [ErrRepoNotFound]. *)
Theorem Sentinel_Update_no_404_arm s ctx svc repo data w resp w' :
  UpdateExchange s ctx svc repo data w = ((resp, None), w') ->
  resty.StatusCode resp <> http.StatusOK ->
  resty.StatusCode resp <> http.StatusUnprocessableEntity ->
  Sentinel.Update s ctx svc repo data w
  = ((None,
      Some (Sentinel.Errorf_status (resty.StatusCode resp)
              Sentinel.ErrUnexpectedStatusCode)), w')
  /\ (Sentinel.Update s ctx svc repo data w).1.2
     <> Some Sentinel.ErrRepoNotFound.
Proof.
  intros Hx Hok Hunprocessable.
  assert (Sentinel.Update s ctx svc repo data w
          = ((None,
              Some (Sentinel.Errorf_status (resty.StatusCode resp)
                      Sentinel.ErrUnexpectedStatusCode)), w')) as Hrun.
  { unfold_call. rewrite Hx. apply Z.eqb_neq in Hok, Hunprocessable.
    now rewrite Hok, Hunprocessable. }
  now rewrite Hrun.
Qed.
End SentinelArms.

(** X15. The error [fmt.Errorf] builds with [%w] around a sentinel is not
    that sentinel (a comparison with [==] fails), [errors.Is] finds the
    sentinel in it, and its message is the status in decimal before the
    sentinel's own message. *)
Theorem Errorf_status_wraps (c : Z) (e : Sentinel.error) :
  Sentinel.Errorf_status c e <> e
  /\ Sentinel.Is (Sentinel.Errorf_status c e) e = true
  /\ Sentinel.Unwrap (Sentinel.Errorf_status c e) = Some e
  /\ Sentinel.Error (Sentinel.Errorf_status c e)
     = "status code " +:+ pretty c +:+ ": " +:+ Sentinel.Error e.
Proof.
  repeat split.
  - unfold Sentinel.Errorf_status. intros Heq.
    apply (f_equal (fix size (x : Sentinel.error) : nat :=
                      match x with
                      | Sentinel.wrapError _ inner => S (size inner)
                      | _ => O
                      end)) in Heq.
    simpl in Heq. lia.
  - unfold Sentinel.Errorf_status. cbn [Sentinel.Is].
    apply orb_true_iff. right.
    destruct e; cbn [Sentinel.Is]; apply orb_true_iff; left;
      now apply bool_decide_eq_true.
Qed.

(** ** The wire format of [RepositoryConfig] and [Repository] *)

Section WireFormat.
Context `{!Lexical}.
Local Arguments coerceUTF8 : simpl never.

(** X16. In the serialised config [service] and [name] are always there,
    empty or not (their bytes coerced to valid UTF-8), and an optional
    field that is set is there with its value, [false] and zero included:
    unset, false and true stay three different things on the wire. *)
Theorem set_fields_present (c : RepositoryConfig)
    (members : list (string * JSON)) :
  marshalRepositoryConfig c = Some (JObject members) ->
  ("service", JString (coerceUTF8 (RepositoryConfig.Service c))) ∈ members
  /\ ("name", JString (coerceUTF8 (RepositoryConfig.Name c))) ∈ members
  /\ (forall b, RepositoryConfig.CommentOnPullRequests c = Some b ->
        ("comment_on_pull_requests", JBool b) ∈ members)
  /\ (forall b, RepositoryConfig.SendBuildStatus c = Some b ->
        ("send_build_status", JBool b) ∈ members)
  /\ (forall f, RepositoryConfig.CommitStatusFailThreshold c = Some f ->
        ("commit_status_fail_threshold", JNumber (FormatFloat f)) ∈ members)
  /\ (forall f, RepositoryConfig.CommitStatusFailChangeThreshold c = Some f ->
        ("commit_status_fail_change_threshold", JNumber (FormatFloat f))
          ∈ members).
Proof.
  destruct c as [service name comment send threshold change].
  unfold marshalRepositoryConfig. simpl.
  destruct comment as [b1|], send as [b2|], threshold as [f1|],
           change as [f2|]; simpl; unfold encodeFloat;
    repeat match goal with
           | |- context [if ?b then _ else _] => destruct b; simpl
           end;
    intros Hm; try discriminate; injection Hm as <-;
    repeat split; intros; simplify_eq; set_solver.
Qed.

(** Member by member: the members a config is serialised to, stored into
    an empty config, rebuild it. *)
Lemma encoded_members_decode (c : RepositoryConfig)
    (members : list (string * JSON)) :
  encodeFields RepositoryConfig.tag RepositoryConfig.omitempty isEmptyValue
    encodeField RepositoryConfig.fields c = Some members ->
  ValidString (RepositoryConfig.Service c) = true ->
  ValidString (RepositoryConfig.Name c) = true ->
  (forall f, RepositoryConfig.CommitStatusFailThreshold c = Some f ->
     ParseFloat (FormatFloat f) = Some f) ->
  (forall f, RepositoryConfig.CommitStatusFailChangeThreshold c = Some f ->
     ParseFloat (FormatFloat f) = Some f) ->
  object RepositoryConfig.tag RepositoryConfig.fields storeRepositoryConfig
    members RepositoryConfig.zero = Some c.
Proof.
  destruct c as [service name comment send threshold change].
  simpl. intros Hm Hservice Hname Hthreshold Hchange.
  apply String.eqb_eq in Hservice, Hname.
  destruct comment as [b1|], send as [b2|], threshold as [f1|],
           change as [f2|]; simpl in Hm; unfold encodeFloat in Hm;
    repeat match type of Hm with
           | context [if ?b then _ else _] => destruct b; simpl in Hm
           end;
    try discriminate; injection Hm as <-; simpl;
    rewrite ?(Hthreshold _ eq_refl); simpl;
    rewrite ?(Hchange _ eq_refl); simpl;
    rewrite !Hservice, !Hname; reflexivity.
Qed.

(** X17. A config whose [service] and [name] are valid UTF-8 and that
    serialises comes back as it was: decoding the JSON value it was
    serialised to into an empty config gives the config, provided a
    threshold's literal reads back as the same number. *)
Theorem RepositoryConfig_round_trip (c : RepositoryConfig) (j : JSON) :
  marshalRepositoryConfig c = Some j ->
  ValidString (RepositoryConfig.Service c) = true ->
  ValidString (RepositoryConfig.Name c) = true ->
  (forall f, RepositoryConfig.CommitStatusFailThreshold c = Some f ->
     ParseFloat (FormatFloat f) = Some f) ->
  (forall f, RepositoryConfig.CommitStatusFailChangeThreshold c = Some f ->
     ParseFloat (FormatFloat f) = Some f) ->
  Unmarshal j RepositoryConfig.zero = Some c.
Proof.
  unfold marshalRepositoryConfig.
  intros Hm Hservice Hname Hthreshold Hchange.
  destruct (encodeFields _ _ _ _ _ c) as [members|] eqn:Henc;
    [|discriminate].
  injection Hm as <-.
  exact (encoded_members_decode c members Henc Hservice Hname
           Hthreshold Hchange).
Qed.

(** X18. A member that is [null] leaves its field as the empty record has
    it, so a [null] threshold is a nil pointer like one that is left
    out. *)
Theorem null_member_is_absent (members : list (string * JSON)) :
  (forall (r : Repository) (f : Repository.field),
     canonical Repository.tag Repository.fields members = true ->
     Unmarshal (JObject members) Repository.zero = Some r ->
     (Repository.tag f, JNull) ∈ members ->
     getRepository f r = getRepository f Repository.zero)
  /\ (forall (c : RepositoryConfig) (f : RepositoryConfig.field),
        canonical RepositoryConfig.tag RepositoryConfig.fields members
          = true ->
        Unmarshal (JObject members) RepositoryConfig.zero = Some c ->
        (RepositoryConfig.tag f, JNull) ∈ members ->
        getRepositoryConfig f c
        = getRepositoryConfig f RepositoryConfig.zero).
Proof.
  split.
  - intros r f Hcanon Hrun Hin.
    destruct (Repository_decoded members r Hcanon Hrun) as [Hdec _].
    apply andb_true_iff in Hcanon as [Hnodup _].
    apply bool_decide_eq_true in Hnodup.
    pose proof (decoded_present _ _ _ _ _ f JNull Hdec Hnodup Hin) as Hst.
    destruct f; cbn in Hst; cbn; congruence.
  - intros c f Hcanon Hrun Hin.
    destruct (RepositoryConfig_decoded members c Hcanon Hrun) as [Hdec _].
    apply andb_true_iff in Hcanon as [Hnodup _].
    apply bool_decide_eq_true in Hnodup.
    pose proof (decoded_present _ _ _ _ _ f JNull Hdec Hnodup Hin) as Hst.
    destruct f; cbn in Hst; cbn; congruence.
Qed.
End WireFormat.

(** ** The same, run against scripted answers *)

Section ArmsExamples.
#[local] Existing Instance Fixture.lexical.
#[local] Existing Instance Fixture.wire.

Lemma Get_404_repo_not_found_witness :
  (Structured.Get Fixture.svc Fixture.ctx "github" "org/missing"
     (Fixture.answering 404 "Not Found")).1
  = (None, Some Structured.ErrRepoNotFound).
Proof.
  refine (f_equal fst
            (Get_404_repo_not_found Fixture.svc Fixture.ctx "github"
               "org/missing" (Fixture.answering 404 "Not Found") _ _ _ _)).
  - reflexivity.
  - reflexivity.
Defined.

Lemma Add_other_status_witness :
  (Structured.Add Fixture.svc Fixture.ctx (Some Fixture.minimal)
     (Fixture.answering 200 "ok")).1
  = (None, Some (Structured.ErrUnexpectedStatusCode 200 "ok")).
Proof.
  erewrite (Add_other_status Fixture.svc Fixture.ctx (Some Fixture.minimal)
              (Fixture.answering 200 "ok")); cycle 1.
  - reflexivity.
  - discriminate.
  - discriminate.
  - reflexivity.
Defined.

Lemma Update_other_status_witness :
  (Structured.Update Fixture.svc Fixture.ctx "github" "org/repo"
     (Some Fixture.minimal) (Fixture.answering 500 "server error")).1
  = (None, Some (Structured.ErrUnexpectedStatusCode 500 "server error")).
Proof.
  erewrite (Update_other_status Fixture.svc Fixture.ctx "github" "org/repo"
              (Some Fixture.minimal)
              (Fixture.answering 500 "server error")); cycle 1.
  - reflexivity.
  - discriminate.
  - discriminate.
  - discriminate.
  - reflexivity.
Defined.

Lemma client_error_propagated_witness :
  (Structured.Get Fixture.svc Fixture.ctx "github" "org/repo"
     (Fixture.failing (Structured.ClientError "connection refused"))).1
  = (None, Some (Structured.ClientError "connection refused")).
Proof.
  apply (proj1 (client_error_propagated Fixture.svc Fixture.ctx "github"
                  "org/repo" None
                  (Fixture.failing
                     (Structured.ClientError "connection refused"))
                  (Structured.ClientError "connection refused"))).
  reflexivity.
Defined.

Lemma documented_errors_witness :
  let e := (Structured.Add Fixture.svc Fixture.ctx (Some Fixture.minimal)
              (Fixture.answering 404 "Not Found")).1.2 in
  e = None \/ e = Some Structured.ErrNameIsTaken
  \/ e = Some (Structured.ErrUnprocessableEntity "Not Found")
  \/ e = Some (Structured.ErrUnexpectedStatusCode 404 "Not Found").
Proof.
  pose proof (proj1 (proj2 (documented_errors Fixture.svc Fixture.ctx
                              "github" "org/repo" (Some Fixture.minimal)
                              (Fixture.answering 404 "Not Found")))) as H.
  vm_compute in H. specialize (H eq_refl). vm_compute. exact H.
Defined.

Lemma Sentinel_Get_wrapped_status_witness :
  (Sentinel.Get Fixture.svc Fixture.ctx "github" "org/repo"
     (Fixture.answeringSentinel 500 "server error")).1.2
  <> Some Sentinel.ErrUnexpectedStatusCode.
Proof.
  edestruct (Sentinel_Get_wrapped_status Fixture.svc Fixture.ctx "github"
               "org/repo" (Fixture.answeringSentinel 500 "server error"))
    as [e [Hrun [Hne _]]].
  - reflexivity.
  - discriminate.
  - discriminate.
  - rewrite Hrun. simpl. congruence.
Defined.

Lemma Sentinel_Add_failures_witness :
  (Sentinel.Add Fixture.svc Fixture.ctx (Some Fixture.full)
     (Fixture.answeringSentinel 422 "Name has already been taken")).1
  = (None, Some Sentinel.ErrUnprocessableEntity).
Proof.
  erewrite (Sentinel_Add_failures Fixture.svc Fixture.ctx (Some Fixture.full)
              (Fixture.answeringSentinel 422
                 "Name has already been taken")); cycle 1.
  - reflexivity.
  - discriminate.
  - reflexivity.
Defined.

Lemma Sentinel_Update_no_404_arm_witness :
  (Sentinel.Update Fixture.svc Fixture.ctx "github" "org/missing"
     (Some Fixture.full) (Fixture.answeringSentinel 404 "Not Found")).1
  = (None,
     Some (Sentinel.Errorf_status 404 Sentinel.ErrUnexpectedStatusCode)).
Proof.
  edestruct (Sentinel_Update_no_404_arm Fixture.svc Fixture.ctx "github"
               "org/missing" (Some Fixture.full)
               (Fixture.answeringSentinel 404 "Not Found")) as [Hrun _].
  - reflexivity.
  - discriminate.
  - discriminate.
  - rewrite Hrun. reflexivity.
Defined.

Lemma set_fields_present_witness :
  ("comment_on_pull_requests", JBool false)
    ∈ [("service", JString "github"); ("name", JString "org/repo");
       ("comment_on_pull_requests", JBool false);
       ("send_build_status", JBool true);
       ("commit_status_fail_threshold", JNumber "80.5");
       ("commit_status_fail_change_threshold", JNumber "5")].
Proof.
  refine (proj1 (proj2 (proj2
            (set_fields_present Fixture.full _ _))) false _);
    reflexivity.
Defined.

Lemma RepositoryConfig_round_trip_witness :
  Unmarshal
    (JObject [("service", JString "github"); ("name", JString "org/repo");
              ("comment_on_pull_requests", JBool false);
              ("send_build_status", JBool true);
              ("commit_status_fail_threshold", JNumber "80.5");
              ("commit_status_fail_change_threshold", JNumber "5")])
    RepositoryConfig.zero
  = Some Fixture.full.
Proof.
  apply (RepositoryConfig_round_trip Fixture.full).
  - reflexivity.
  - reflexivity.
  - reflexivity.
  - intros f [= <-]. reflexivity.
  - intros f [= <-]. reflexivity.
Defined.


Lemma null_member_is_absent_witness :
  getRepository Repository.fCommitStatusFailThreshold
    {| Repository.ID := 1234; Repository.Name := "org/repo";
       Repository.Service := "";
       Repository.CommentOnPullRequests := None;
       Repository.SendBuildStatus := None;
       Repository.CommitStatusFailThreshold := None;
       Repository.CommitStatusFailChangeThreshold := None;
       Repository.HasBadge := false; Repository.Token := "";
       Repository.CreatedAt := ""; Repository.UpdatedAt := "" |}
  = getRepository Repository.fCommitStatusFailThreshold Repository.zero.
Proof.
  apply (proj1 (null_member_is_absent Fixture.nullBody)).
  - reflexivity.
  - reflexivity.
  - unfold Fixture.nullBody. simpl. set_solver.
Defined.
End ArmsExamples.
